(** * qproject: the command-line orchestrator ([qproject/commandline.py])

    A shallow embedding of the orchestrator of qproject and the proofs of
    its lifecycle properties.  The orchestrator is effectful Python: it
    calls the workspace and workflow layer ([projects]), the daemonization
    helper ([utils]), the file system and the logger, and it relies on
    exceptions with [try]/[except]/[else]/[finally].

    The embedding is a small monad [M]: a computation reads the history of
    external calls made so far, and returns an outcome (a value or a raised
    exception) together with the calls it made itself, in order.  What the
    outside answers to a call is given by a [World], over which every
    theorem quantifies. *)

From Stdlib Require Import String Ascii List ZArith Bool Arith Lia.
Import ListNotations.
Local Open Scope string_scope.
Local Open Scope list_scope.

(** String concatenation, written apart from the append of lists. *)
Infix "^^" := String.append (at level 60, right associativity).

(** ** Python values used by the orchestrator *)

(** The exception classes that matter to the control flow.  [ValueError],
    [RuntimeError], [TypeError] and [OSError] derive from [Exception];
    [KeyboardInterrupt] and [SystemExit] derive from [BaseException] only. *)
Inductive exn : Type :=
| ValueError (msg : string)
| RuntimeError (msg : string)
| TypeError (msg : string)
| OSError (msg : string)
| KeyboardInterrupt
| SystemExit (code : Z).

(** [isinstance(e, Exception)] *)
Definition is_Exception (e : exn) : bool :=
  match e with
  | ValueError _ | RuntimeError _ | TypeError _ | OSError _ => true
  | KeyboardInterrupt | SystemExit _ => false
  end.

(** [isinstance(e, ValueError)] *)
Definition is_ValueError (e : exn) : bool :=
  match e with
  | ValueError _ => true
  | _ => false
  end.

Inductive result (A : Type) : Type :=
| Ok (a : A)
| Raise (e : exn).
Arguments Ok {A} a.
Arguments Raise {A} e.

Definition is_ok {A} (r : result A) : bool :=
  match r with
  | Ok _ => true
  | Raise _ => false
  end.

(** What [json.load] returns.  JSON [null] is Python's [None]. *)
#[local] Set Warnings "-register-all".
Inductive json : Type :=
| JNull
| JBool (b : bool)
| JNum (n : Z)
| JStr (s : string)
| JArr (items : list json)
| JObj (members : list (string * json)).
#[local] Set Warnings "register-all".

(** Truth value of an optional string ([None] or [str]): [None] and the
    empty string are false. *)
Definition truthy (o : option string) : bool :=
  match o with
  | Some s => negb (s =? "")
  | None => false
  end.

(** [str(o)] for an optional string, as [%s] formats it. *)
Definition py_str (o : option string) : string :=
  match o with
  | Some s => s
  | None => "None"
  end.

(** ** [os.path] on POSIX *)

Module posixpath.

Definition sep : ascii := "/"%char.

Definition startswith_sep (s : string) : bool :=
  match s with
  | String c _ => Ascii.eqb c sep
  | EmptyString => false
  end.

Fixpoint endswith_sep (s : string) : bool :=
  match s with
  | EmptyString => false
  | String c EmptyString => Ascii.eqb c sep
  | String _ rest => endswith_sep rest
  end.

(** [os.path.join(a, b)] for two strings. *)
Definition join2 (a b : string) : string :=
  if startswith_sep b then b
  else if (a =? "") || endswith_sep a then a ^^ b
  else a ^^ "/" ^^ b.

(** [os.path.join(a, b)]; a component that is [None] is a [TypeError]. *)
Definition join (a b : option string) : result string :=
  match a, b with
  | Some a, Some b => Ok (join2 a b)
  | _, _ => Raise (TypeError "expected str, bytes or os.PathLike object, not NoneType")
  end.

(** Drops the characters after the last separator of a reversed path:
    the reverse of [p[:p.rfind('/') + 1]]. *)
Fixpoint head_rev (r : list ascii) : list ascii :=
  match r with
  | [] => []
  | c :: r' => if Ascii.eqb c sep then r else head_rev r'
  end.

(** [head.rstrip('/')] on the reversed head. *)
Fixpoint rstrip_rev (r : list ascii) : list ascii :=
  match r with
  | [] => []
  | c :: r' => if Ascii.eqb c sep then rstrip_rev r' else r
  end.

(** [os.path.dirname(p)] *)
Definition dirname (p : string) : string :=
  let head := head_rev (rev (list_ascii_of_string p)) in
  let all_sep := forallb (fun c => Ascii.eqb c sep) head in
  string_of_list_ascii
    (rev (if negb (Nat.eqb (length head) 0) && negb all_sep
          then rstrip_rev head else head)).

End posixpath.

(** ** The argument namespace ([parse_args]) *)

(** [choices=['prepare', 'run', 'commit']] *)
Inductive command : Type := CmdPrepare | CmdRun | CmdCommit.

Definition command_str (c : command) : string :=
  match c with
  | CmdPrepare => "prepare"
  | CmdRun => "run"
  | CmdCommit => "commit"
  end.

(** [c in ['run', 'commit']] *)
Definition run_or_commit (c : command) : bool :=
  match c with
  | CmdRun | CmdCommit => true
  | CmdPrepare => false
  end.

(** [--umask] has no [type=]: the default is the integer [0o077], a value
    given on the command line stays a string. *)
Inductive umask_arg : Type :=
| UmaskInt (n : Z)
| UmaskStr (s : string).

Record Args : Type := mkArgs {
  a_command : command;
  a_target : string;
  a_workflow : list string;
  a_commit : list string;
  a_data : list string;
  a_params : list string;
  a_user : option string;
  a_group : option string;
  a_jobid : option string;
  a_server_file : option string;
  a_dropbox : option string;
  a_barcode : option string;
  a_daemon : bool;
  a_pidfile : option string;
  a_umask : umask_arg;
  a_cleanup : bool
}.

(** ** Objects of the [projects] layer *)

(** Modelled from the spec: [projects.Workspace] is not part of this file;
    the spec gives it the root path [base] and the sub-paths [src], [var]
    and [result]. *)
Record Workspace : Type := mkWorkspace {
  ws_base : string;
  ws_src : string;
  ws_var : string;
  ws_result : string
}.

(** Modelled from the spec: [projects.Workflow] is not part of this file.
    A handle is what the orchestrator passes to its constructor: the
    workspace, the directory name (second positional argument, used by the
    commit phase) and the keywords [remote], [commit] and [params]
    ([JNull] is [None]). *)
Record Workflow : Type := mkWorkflow {
  wf_workspace : Workspace;
  wf_name : option string;
  wf_remote : option string;
  wf_commit : option string;
  wf_params : json
}.

(** [projects.Workflow(workspace, name)]: the handle of an existing
    directory. *)
Definition workflow_named (ws : Workspace) (name : string) : Workflow :=
  mkWorkflow ws (Some name) None None JNull.

(** The handle returned by [Workflow.run]: the child process. *)
Record Popen : Type := mkPopen { pid : nat }.

(** ** External calls *)

Inductive level : Type := INFO | ERROR | CRITICAL.

Inductive handler_kind : Type := SysLogHandler | StreamHandler.

Inductive event : Type :=
| EvParseArgs
| EvInitLogging (h : handler_kind) (fmt : string)
| EvLog (lvl : level) (msg : string)
| EvLogException (msg : string) (e : exn)
| EvPrepare (target : string) (create_ok : bool) (user group : option string)
| EvOpen (path : string)
| EvJsonLoad (path : string)
| EvClose (path : string)
| EvWorkflow (wf : Workflow)
| EvCreate (wf : Workflow) (user group : option string)
| EvClone (wf : Workflow)
| EvWriteConfig (wf : Workflow) (user group : option string)
| EvRun (wf : Workflow) (user : option string)
| EvWait (p : Popen)
| EvCopyData (ws : Workspace) (data : list string) (user group : option string)
| EvExists (path : string)
| EvIsdir (path : string)
| EvListdir (path : string)
| EvCommit (wf : Workflow) (dropbox : string) (user : option string) (umask : Z)
| EvRmtree (path : string)
| EvUmask (u : umask_arg).

Definition trace : Type := list event.

(** ** The monad of the embedding *)

(** A computation reads the history (the calls made before it started) and
    returns its outcome and the calls it made. *)
Definition M (A : Type) : Type := trace -> result A * trace.

Definition ret {A} (a : A) : M A := fun _ => (Ok a, []).

Definition raise {A} (e : exn) : M A := fun _ => (Raise e, []).

Definition bind {A B} (m : M A) (k : A -> M B) : M B :=
  fun h =>
    match m h with
    | (Ok a, es) =>
        match k a (h ++ es) with
        | (r, es') => (r, es ++ es')
        end
    | (Raise e, es) => (Raise e, es)
    end.

Declare Scope m_scope.
Delimit Scope m_scope with m.
Notation "x <- m ;; k" := (bind m (fun x => k))
  (at level 100, m at next level, right associativity) : m_scope.
Notation "m ;; k" := (bind m (fun _ => k))
  (at level 100, right associativity) : m_scope.
Local Open Scope m_scope.

(** An external call: recorded as [ev], answered from the history. *)
Definition call {A} (ev : event) (answer : trace -> result A) : M A :=
  fun h => (answer h, [ev]).

(** A query that cannot raise. *)
Definition ask (ev : event) (answer : trace -> bool) : M bool :=
  fun h => (Ok (answer h), [ev]).

(** Lifting of a pure, possibly raising computation. *)
Definition lift {A} (r : result A) : M A := fun _ => (r, []).

(** The logger; logging itself does not raise. *)
Definition logger_info (msg : string) : M unit :=
  fun _ => (Ok tt, [EvLog INFO msg]).

Definition logger_critical (msg : string) : M unit :=
  fun _ => (Ok tt, [EvLog CRITICAL msg]).

(** [logger.exception(msg)] in a handler of [e]. *)
Definition logger_exception (msg : string) (e : exn) : M unit :=
  fun _ => (Ok tt, [EvLogException msg e]).

(** [try: body / except Exception: handler]. *)
Definition try_except_Exception {A} (body : M A) (handler : exn -> M A) : M A :=
  fun h =>
    match body h with
    | (Ok a, es) => (Ok a, es)
    | (Raise e, es) =>
        if is_Exception e
        then match handler e (h ++ es) with
             | (r, es') => (r, es ++ es')
             end
        else (Raise e, es)
    end.

(** [try: body / except ValueError: handler]. *)
Definition try_except_ValueError {A} (body : M A) (handler : exn -> M A) : M A :=
  fun h =>
    match body h with
    | (Ok a, es) => (Ok a, es)
    | (Raise e, es) =>
        if is_ValueError e
        then match handler e (h ++ es) with
             | (r, es') => (r, es ++ es')
             end
        else (Raise e, es)
    end.

(** [try: body / except: handler] (a bare [except] catches everything). *)
Definition try_except_all {A} (body : M A) (handler : exn -> M A) : M A :=
  fun h =>
    match body h with
    | (Ok a, es) => (Ok a, es)
    | (Raise e, es) =>
        match handler e (h ++ es) with
        | (r, es') => (r, es ++ es')
        end
    end.

(** [try: body / finally: final].  The [finally] block always runs; if it
    raises, its exception replaces the outcome of the body. *)
Definition try_finally {A} (body : M A) (final : M unit) : M A :=
  fun h =>
    match body h with
    | (r, es) =>
        match final (h ++ es) with
        | (Ok _, es') => (r, es ++ es')
        | (Raise e, es') => (Raise e, es ++ es')
        end
    end.

(** [try: body / except Exception: handler / else: orelse].  The [else]
    block runs when the body did not raise, outside the handler's reach. *)
Definition try_except_else (body : M unit) (handler : exn -> M unit)
    (orelse : M unit) : M unit :=
  fun h =>
    match body h with
    | (Ok _, es) =>
        match orelse (h ++ es) with
        | (r, es') => (r, es ++ es')
        end
    | (Raise e, es) =>
        if is_Exception e
        then match handler e (h ++ es) with
             | (r, es') => (r, es ++ es')
             end
        else (Raise e, es)
    end.

(** [if b: m] *)
Definition when (b : bool) (m : M unit) : M unit :=
  if b then m else ret tt.

(** [sys.exit(code)] *)
Definition sys_exit (code : Z) : M unit := raise (SystemExit code).

(** ** The outside world *)

(** What the collaborators answer.  Each answer may depend on the history
    of calls, so a world stands for any file system, any repository and any
    child process.  [projects] and [utils] are not part of this file: their
    operations are capabilities of the world. *)
Record World : Type := mkWorld {
  (** [argparse] over [sys.argv] *)
  sys_argv_parse : trace -> result Args;
  (** creation and installation of the log handler *)
  logging_setup : handler_kind -> trace -> result unit;
  (** [projects.prepare(path, create_ok, user=, group=)] *)
  projects_prepare :
    string -> bool -> option string -> option string -> trace -> result Workspace;
  (** [projects.copy_data(workspace, data, user, group)] *)
  projects_copy_data :
    Workspace -> list string -> option string -> option string -> trace -> result unit;
  (** [projects.Workflow(...)], the constructor *)
  Workflow_init : Workflow -> trace -> result unit;
  (** [workflow.name] *)
  Workflow_name : Workflow -> string;
  Workflow_create : Workflow -> option string -> option string -> trace -> result unit;
  Workflow_clone : Workflow -> trace -> result unit;
  Workflow_write_config :
    Workflow -> option string -> option string -> trace -> result unit;
  Workflow_run : Workflow -> option string -> trace -> result Popen;
  (** [popen.wait()], giving [popen.returncode] afterwards *)
  Popen_wait : Popen -> trace -> result Z;
  Workflow_commit : Workflow -> string -> option string -> Z -> trace -> result unit;
  (** [open(path)] and [json.load(f)] *)
  builtin_open : string -> trace -> result unit;
  json_load : string -> trace -> result json;
  os_path_exists : string -> trace -> bool;
  os_path_isdir : string -> trace -> bool;
  os_listdir : string -> trace -> result (list string);
  shutil_rmtree : string -> trace -> result unit;
  os_umask : umask_arg -> trace -> result unit;
  (** [utils.daemonize(run, pidfile, umask)] *)
  utils_daemonize : M unit -> option string -> umask_arg -> M unit
}.

(** [itertools.zip_longest] of three lists: the iteration goes on until
    all three are exhausted, an exhausted one yields [None]. *)
Fixpoint zip_longest_fuel {A B C} (fuel : nat)
    (l1 : list A) (l2 : list B) (l3 : list C)
    : list (option A * option B * option C) :=
  match fuel with
  | O => []
  | S fuel' =>
      match l1, l2, l3 with
      | [], [], [] => []
      | _, _, _ =>
          (hd_error l1, hd_error l2, hd_error l3)
            :: zip_longest_fuel fuel' (tl l1) (tl l2) (tl l3)
      end
  end.

Definition zip_longest {A B C} (l1 : list A) (l2 : list B) (l3 : list C)
    : list (option A * option B * option C) :=
  zip_longest_fuel (length l1 + length l2 + length l3) l1 l2 l3.

(** ** The orchestrator *)

Section Orchestrator.

Variable W : World.

(** [init_logging(jobid, name, daemon)] *)
Definition init_logging (jobid name : option string) (daemon : bool) : M unit :=
  let handler := if daemon then SysLogHandler else StreamHandler in
  let formatter :=
    match jobid with
    | Some j => "qproject - job " ^^ j ^^ " - %(message)s"
    | None =>
        match name with
        | Some n => "qproject - job " ^^ n ^^ " - %(message)s"
        | None => "qproject - %(message)s"
        end
    end in
  call (EvInitLogging handler formatter) (logging_setup W handler).

(** [parse_args()] *)
Definition parse_args : M Args :=
  call EvParseArgs (sys_argv_parse W).

(** [os.path.exists(p)] and [os.path.isdir(p)]; [None] is a [TypeError]
    for the first, and [os.path.dirname(None)] for the second. *)
Definition path_exists (p : option string) : M bool :=
  match p with
  | Some p => ask (EvExists p) (os_path_exists W p)
  | None => raise (TypeError "stat: path should be string, bytes, os.PathLike or integer, not NoneType")
  end.

Definition isdir_dirname (p : option string) : M bool :=
  match p with
  | Some p =>
      let d := posixpath.dirname p in
      ask (EvIsdir d) (os_path_isdir W d)
  | None => raise (TypeError "expected str, bytes or os.PathLike object, not NoneType")
  end.

Definition validate_args (args : Args) : M unit :=
  when (truthy (a_dropbox args))
    (when (negb (truthy (a_barcode args)))
       (raise (ValueError "barcode must be specified if dropbox is")) ;;
     when (negb (truthy (a_user args)))
       (raise (ValueError "specify user to copy back data"))) ;;
  when (a_daemon args && negb (truthy (a_pidfile args)))
    (raise (ValueError "pidfile must be specified if daemon is")) ;;
  when (a_daemon args)
    (ex <- path_exists (a_pidfile args) ;;
     when ex
       (raise (ValueError ("Pidfile exists: " ^^ py_str (a_pidfile args)))) ;;
     isd <- isdir_dirname (a_pidfile args) ;;
     when (negb isd)
       (raise (ValueError ("Invalid pidfile: " ^^ py_str (a_pidfile args))))) ;;
  when (run_or_commit (a_command args) && negb (truthy (a_dropbox args)))
    (raise (ValueError ("dropbox must be specified for command '"
                          ^^ command_str (a_command args) ^^ "'"))).

(** [with open(params) as f: try: json.load(f) except ValueError: ...] *)
Definition load_params (params : string) : M json :=
  call (EvOpen params) (builtin_open W params) ;;
  try_finally
    (try_except_ValueError
       (call (EvJsonLoad params) (json_load W params))
       (fun e =>
          logger_exception ("Invalid parameter file: " ^^ params) e ;;
          raise e))
    (fun _ => (Ok tt, [EvClose params])).

(** [if params: (load it) else: params = None] *)
Definition read_params (params : option string) : M json :=
  if truthy params
  then match params with
       | Some p => load_params p
       | None => ret JNull
       end
  else ret JNull.

(** [workflow.create(user=, group=); workflow.clone();
    workflow.write_config(user, group)] of [prepare_command] *)
Definition clone_steps (args : Args) (workflow : Workflow) : M unit :=
  call (EvCreate workflow (a_user args) (a_group args))
    (Workflow_create W workflow (a_user args) (a_group args)) ;;
  call (EvClone workflow) (Workflow_clone W workflow) ;;
  call (EvWriteConfig workflow (a_user args) (a_group args))
    (Workflow_write_config W workflow (a_user args) (a_group args)).

(** The loop of [prepare_command] over the zipped specs. *)
Fixpoint prepare_loop (args : Args) (clone : bool) (workspace : Workspace)
    (specs : list (option string * option string * option string))
    : M (list Workflow) :=
  match specs with
  | [] => ret []
  | (remote, commit, params) :: rest =>
      params <- read_params params ;;
      let workflow := mkWorkflow workspace None remote commit params in
      call (EvWorkflow workflow) (Workflow_init W workflow) ;;
      when clone (clone_steps args workflow) ;;
      workflows <- prepare_loop args clone workspace rest ;;
      ret (workflow :: workflows)
  end.

Definition nonempty {A} (l : list A) : bool :=
  match l with
  | [] => false
  | _ :: _ => true
  end.

Definition copy_data_call (args : Args) (workspace : Workspace) : M unit :=
  call (EvCopyData workspace (a_data args) (a_user args) (a_group args))
    (projects_copy_data W workspace (a_data args) (a_user args) (a_group args)).

Definition prepare_command (args : Args) (clone copy_data : bool)
    : M (Workspace * list Workflow) :=
  workspace <- call (EvPrepare (a_target args) true (a_user args) (a_group args))
                 (projects_prepare W (a_target args) true
                    (a_user args) (a_group args)) ;;
  workflows <- prepare_loop args clone workspace
                 (zip_longest (a_workflow args) (a_commit args) (a_params args)) ;;
  when (nonempty (a_data args) && copy_data) (copy_data_call args workspace) ;;
  ret (workspace, workflows).

(** The comprehension [[projects.Workflow(workspace, name) for name in names]] *)
Fixpoint open_workflows (workspace : Workspace) (names : list string)
    : M (list Workflow) :=
  match names with
  | [] => ret []
  | name :: rest =>
      let workflow := workflow_named workspace name in
      call (EvWorkflow workflow) (Workflow_init W workflow) ;;
      workflows <- open_workflows workspace rest ;;
      ret (workflow :: workflows)
  end.

(** [for workflow in workflows: workflow.commit(dropbox, args.user, umask=0o077)] *)
Fixpoint commit_loop (args : Args) (dropbox : string)
    (workflows : list Workflow) : M unit :=
  match workflows with
  | [] => ret tt
  | workflow :: rest =>
      call (EvCommit workflow dropbox (a_user args) 63)
        (Workflow_commit W workflow dropbox (a_user args) 63) ;;
      commit_loop args dropbox rest
  end.

(** The destination computed by [commit_command]. *)
Definition commit_destination (args : Args) : result string :=
  if truthy (a_barcode args)
  then posixpath.join (a_dropbox args) (a_barcode args)
  else posixpath.join (a_dropbox args) (a_jobid args).

(** [logger.info("Removing workspace"); shutil.rmtree(workspace.base)] *)
Definition remove_workspace (workspace : Workspace) : M unit :=
  logger_info "Removing workspace" ;;
  call (EvRmtree (ws_base workspace)) (shutil_rmtree W (ws_base workspace)).

(** The [try] block of [commit_command]. *)
Definition commit_try (args : Args) : M unit :=
  logger_info "Write results and logs to dropbox" ;;
  workspace <- call (EvPrepare (a_target args) false None None)
                 (projects_prepare W (a_target args) false None None) ;;
  dropbox <- lift (commit_destination args) ;;
  ex <- ask (EvExists dropbox) (os_path_exists W dropbox) ;;
  when ex
    (raise (ValueError
              ("Dropbox directory exists: " ^^ dropbox
                 ^^ ". Could not copy results The Workspace will *not* be cleaned up: "
                 ^^ ws_base workspace))) ;;
  names <- call (EvListdir (ws_src workspace))
             (os_listdir W (ws_src workspace)) ;;
  workflows <- open_workflows workspace names ;;
  commit_loop args dropbox workflows ;;
  when (a_cleanup args) (remove_workspace workspace).

Definition commit_command (args : Args) : M unit :=
  try_except_all
    (commit_try args)
    (fun e =>
       logger_critical "Failed to write results to dropbox." ;;
       raise e).

(** The loop of the run procedure over the workflows. *)
Fixpoint run_loop (args : Args) (workflows : list Workflow) : M unit :=
  match workflows with
  | [] => ret tt
  | workflow :: rest =>
      call (EvCreate workflow None None) (Workflow_create W workflow None None) ;;
      call (EvClone workflow) (Workflow_clone W workflow) ;;
      call (EvWriteConfig workflow (a_user args) (a_group args))
        (Workflow_write_config W workflow (a_user args) (a_group args)) ;;
      popen <- call (EvRun workflow (a_user args))
                 (Workflow_run W workflow (a_user args)) ;;
      returncode <- call (EvWait popen) (Popen_wait W popen) ;;
      (if negb (returncode =? 0)%Z
       then raise (RuntimeError
                     ("Workflow " ^^ Workflow_name W workflow
                        ^^ " return non-zero returncode. See workflow log for details"))
       else logger_info ("Workflow " ^^ Workflow_name W workflow ^^ " successfull.")) ;;
      run_loop args rest
  end.

(** The [try] block of the run procedure. *)
Definition run_body (args : Args) (workspace : Workspace)
    (workflows : list Workflow) : M unit :=
  when (nonempty (a_data args)) (copy_data_call args workspace) ;;
  run_loop args workflows.

(** The run procedure, the closure [run] of [run_command]. *)
Definition run (args : Args) (workspace : Workspace)
    (workflows : list Workflow) : M unit :=
  try_finally
    (try_except_else
       (run_body args workspace workflows)
       (fun e => logger_exception "Got exception while executing workflows:" e)
       (logger_info "Workflows were executed successfully"))
    (commit_command args).

Definition run_command (args : Args) : M unit :=
  ww <- prepare_command args false false ;;
  let '(workspace, workflows) := ww in
  if a_daemon args
  then utils_daemonize W (run args workspace workflows)
         (a_pidfile args) (a_umask args)
  else
    call (EvUmask (a_umask args)) (os_umask W (a_umask args)) ;;
    run args workspace workflows.

(** The [try] block of [main] up to the choice of the command. *)
Definition main_prologue : M Args :=
  args <- parse_args ;;
  init_logging (a_jobid args) (Some (a_target args)) (a_daemon args) ;;
  validate_args args ;;
  logger_info ("Starting qproject for user " ^^ py_str (a_user args)
                 ^^ " with command '" ^^ command_str (a_command args)
                 ^^ "' and target '" ^^ a_target args ^^ "'") ;;
  ret args.

(** [if args.command == 'prepare': ... elif ... 'run': ... elif ... 'commit': ...] *)
Definition dispatch (args : Args) : M unit :=
  match a_command args with
  | CmdPrepare => prepare_command args true true ;; ret tt
  | CmdRun => run_command args
  | CmdCommit => commit_command args
  end.

(** The [try] block of [main]; its value is [retcode] at its end. *)
Definition main_try : M Z :=
  args <- main_prologue ;;
  dispatch args ;;
  logger_info "qproject finished succesfully" ;;
  ret 0%Z.

(** [main()]: [retcode] starts at 1, the [try] block sets it to 0 as its
    last statement, the handler of [Exception] leaves it, and the [finally]
    block exits with it. *)
Definition main : M unit :=
  fun h =>
    let retcode := 1%Z in
    let tried :=
      try_except_Exception main_try
        (fun e => logger_exception "Failed to run qproject:" e ;; ret retcode) h in
    let retcode := match fst tried with
                   | Ok c => c
                   | Raise _ => retcode
                   end in
    try_finally
      (fun _ => (match fst tried with
                 | Ok _ => Ok tt
                 | Raise e => Raise e
                 end, snd tried))
      (logger_info "Exiting qproject" ;; sys_exit retcode) h.

End Orchestrator.

(** ** Worlds for concrete runs *)

(** A world in which [parse_args] yields [args] and every collaborator
    succeeds: no path exists but every directory is one, [src] has the
    entries [names], and every child exits with [returncode]. *)
Definition world_with (args : Args) (names : list string) (returncode : Z)
    : World :=
  {| sys_argv_parse := fun _ => Ok args;
     logging_setup := fun _ _ => Ok tt;
     projects_prepare := fun target _ _ _ _ =>
       Ok (mkWorkspace target (posixpath.join2 target "src")
             (posixpath.join2 target "var") (posixpath.join2 target "result"));
     projects_copy_data := fun _ _ _ _ _ => Ok tt;
     Workflow_init := fun _ _ => Ok tt;
     Workflow_name := fun wf =>
       match wf_name wf with
       | Some n => n
       | None => py_str (wf_remote wf)
       end;
     Workflow_create := fun _ _ _ _ => Ok tt;
     Workflow_clone := fun _ _ => Ok tt;
     Workflow_write_config := fun _ _ _ _ => Ok tt;
     Workflow_run := fun _ _ h => Ok (mkPopen (length h));
     Popen_wait := fun _ _ => Ok returncode;
     Workflow_commit := fun _ _ _ _ _ => Ok tt;
     builtin_open := fun _ _ => Ok tt;
     json_load := fun _ _ => Ok (JObj []);
     os_path_exists := fun _ _ => false;
     os_path_isdir := fun _ _ => true;
     os_listdir := fun _ _ => Ok names;
     shutil_rmtree := fun _ _ => Ok tt;
     os_umask := fun _ _ => Ok tt;
     utils_daemonize := fun run _ _ => run |}.

(** ** Predicates of the statements *)

(** The events that only read the file system. *)
Definition is_query (ev : event) : bool :=
  match ev with
  | EvExists _ | EvIsdir _ => true
  | _ => false
  end.

(** The missing combinations, in a world [W] after the history [h]: the
    pidfile is looked up first, its parent directory next. *)
Definition missing_combination (W : World) (args : Args) (h : trace) : Prop :=
  (truthy (a_dropbox args) = true /\ truthy (a_barcode args) = false)
  \/ (truthy (a_dropbox args) = true /\ truthy (a_user args) = false)
  \/ (a_daemon args = true /\ truthy (a_pidfile args) = false)
  \/ (a_daemon args = true /\
      exists p, a_pidfile args = Some p /\
        (os_path_exists W p h = true
         \/ os_path_isdir W (posixpath.dirname p) (h ++ [EvExists p]) = false))
  \/ (run_or_commit (a_command args) = true /\ truthy (a_dropbox args) = false).

(** The first and the last log record of the commit phase, and its call
    re-opening the workspace. *)
Definition ev_commit_start : event :=
  EvLog INFO "Write results and logs to dropbox".

Definition ev_commit_failed : event :=
  EvLog CRITICAL "Failed to write results to dropbox.".

Definition ev_prepare_open (args : Args) : event :=
  EvPrepare (a_target args) false None None.

(** The error of [commit_command] for an existing destination. *)
Definition dropbox_exists_error (dropbox : string) (ws : Workspace) : exn :=
  ValueError
    ("Dropbox directory exists: " ^^ dropbox
       ^^ ". Could not copy results The Workspace will *not* be cleaned up: "
       ^^ ws_base ws).

(** The calls of the commit phase up to the listing of [src]. *)
Definition commit_prefix (args : Args) (d : string) (ws : Workspace) : trace :=
  [ev_commit_start; ev_prepare_open args; EvExists d; EvListdir (ws_src ws)].

(** The events that copy results to the destination or delete the
    workspace. *)
Definition is_commit_or_rmtree (ev : event) : bool :=
  match ev with
  | EvCommit _ _ _ _ | EvRmtree _ => true
  | _ => false
  end.

(** A commit, if [ev] is one, goes to the destination of the invocation
    for its user, with the umask [0o077]. *)
Definition commit_event_ok (args : Args) (ev : event) : Prop :=
  match ev with
  | EvCommit _ d u m =>
      commit_destination args = Ok d /\ u = a_user args /\ m = 63%Z
  | _ => True
  end.

(** The commit phase starts with its log record, and only there. *)
Definition is_commit_start (ev : event) : bool :=
  match ev with
  | EvLog INFO msg => msg =? "Write results and logs to dropbox"
  | _ => false
  end.

Definition count_commit_starts (t : trace) : nat :=
  length (filter is_commit_start t).

(** The integer written by a string of digits in base [base]. *)
Fixpoint int_of_digits (base acc : Z) (s : string) : option Z :=
  match s with
  | EmptyString => Some acc
  | String c rest =>
      let d := (Z.of_nat (nat_of_ascii c) - 48)%Z in
      if ((0 <=? d) && (d <? base))%Z
      then int_of_digits base (acc * base + d)%Z rest
      else None
  end.

(** The umask that the value of [--umask] stands for: the integer itself,
    or the octal or decimal reading of the string. *)
Definition umask_denotes (u : umask_arg) (m : Z) : Prop :=
  match u with
  | UmaskInt n => n = m
  | UmaskStr s =>
      s <> "" /\ (int_of_digits 8 0 s = Some m \/ int_of_digits 10 0 s = Some m)
  end.

(** The calls of one turn of the run loop for [wf], whose child is [p]. *)
Definition steps (args : Args) (wf : Workflow) (p : Popen) : trace :=
  [EvCreate wf None None; EvClone wf;
   EvWriteConfig wf (a_user args) (a_group args);
   EvRun wf (a_user args); EvWait p].

(** The log record of a successful turn, and the error of a failed one. *)
Definition ev_success (W : World) (wf : Workflow) : event :=
  EvLog INFO ("Workflow " ^^ Workflow_name W wf ^^ " successfull.").

Definition nonzero_error (W : World) (wf : Workflow) : exn :=
  RuntimeError
    ("Workflow " ^^ Workflow_name W wf
       ^^ " return non-zero returncode. See workflow log for details").

(** After the history [h], the five calls of the turn for [wf] succeed,
    the child is [p] and its exit status is [rc]. *)
Definition turn_answers (W : World) (args : Args) (wf : Workflow)
    (h : trace) (p : Popen) (rc : Z) : Prop :=
  Workflow_create W wf None None h = Ok tt
  /\ Workflow_clone W wf (h ++ firstn 1 (steps args wf p)) = Ok tt
  /\ Workflow_write_config W wf (a_user args) (a_group args)
       (h ++ firstn 2 (steps args wf p)) = Ok tt
  /\ Workflow_run W wf (a_user args) (h ++ firstn 3 (steps args wf p)) = Ok p
  /\ Popen_wait W p (h ++ firstn 4 (steps args wf p)) = Ok rc.

(** The operations of the run loop, without their answers. *)
Inductive op : Type :=
| OpCopyData
| OpCreate (wf : Workflow)
| OpClone (wf : Workflow)
| OpConfigure (wf : Workflow)
| OpRun (wf : Workflow)
| OpWait.

Definition op_of (ev : event) : list op :=
  match ev with
  | EvCopyData _ _ _ _ => [OpCopyData]
  | EvCreate wf _ _ => [OpCreate wf]
  | EvClone wf => [OpClone wf]
  | EvWriteConfig wf _ _ => [OpConfigure wf]
  | EvRun wf _ => [OpRun wf]
  | EvWait _ => [OpWait]
  | _ => []
  end.

Definition ops (t : trace) : list op := flat_map op_of t.

Definition turn_ops (wf : Workflow) : list op :=
  [OpCreate wf; OpClone wf; OpConfigure wf; OpRun wf; OpWait].

(** The order of the run procedure: the copy of the input data, if there
    is any, then the turns of the workflows in list order. *)
Definition schedule (args : Args) (wfs : list Workflow) : list op :=
  (if nonempty (a_data args) then [OpCopyData] else [])
    ++ flat_map turn_ops wfs.

(** What the run procedure logs once its [try] block is left. *)
Definition run_epilogue (r : result unit) : trace :=
  match r with
  | Ok _ => [EvLog INFO "Workflows were executed successfully"]
  | Raise e =>
      if is_Exception e
      then [EvLogException "Got exception while executing workflows:" e]
      else []
  end.

(** The calls of the run procedure before its [finally] block. *)
Definition before_commit (W : World) (args : Args) (ws : Workspace)
    (wfs : list Workflow) (h : trace) : trace :=
  snd (run_body W args ws wfs h) ++ run_epilogue (fst (run_body W args ws wfs h)).

(** The first call of [prepare_command]. *)
Definition ev_prepare_create (args : Args) : event :=
  EvPrepare (a_target args) true (a_user args) (a_group args).

(** The workflows constructed, cloned and committed in a trace, in order. *)
Fixpoint constructed (t : trace) : list Workflow :=
  match t with
  | [] => []
  | EvWorkflow wf :: t' => wf :: constructed t'
  | _ :: t' => constructed t'
  end.

Fixpoint cloned (t : trace) : list Workflow :=
  match t with
  | [] => []
  | EvClone wf :: t' => wf :: cloned t'
  | _ :: t' => cloned t'
  end.

Fixpoint committed (t : trace) : list Workflow :=
  match t with
  | [] => []
  | EvCommit wf _ _ _ :: t' => wf :: committed t'
  | _ :: t' => committed t'
  end.

(** The workflow handle that the loop of [prepare_command] builds from a
    spec: a missing remote or commit is [None], a missing (or empty)
    parameter file gives no parameters. *)
Definition built_from (workspace : Workspace)
    (spec : option string * option string * option string)
    (wf : Workflow) : Prop :=
  wf_workspace wf = workspace /\ wf_name wf = None
  /\ wf_remote wf = fst (fst spec) /\ wf_commit wf = snd (fst spec)
  /\ (truthy (snd spec) = false -> wf_params wf = JNull).

(** A world in which no call made by [prepare_command] raises. *)
Definition prepare_calls_succeed (W : World) : Prop :=
  (forall t c u g h, exists ws, projects_prepare W t c u g h = Ok ws)
  /\ (forall wf h, Workflow_init W wf h = Ok tt)
  /\ (forall p h, builtin_open W p h = Ok tt)
  /\ (forall p h, exists j, json_load W p h = Ok j)
  /\ (forall wf u g h, Workflow_create W wf u g h = Ok tt)
  /\ (forall wf h, Workflow_clone W wf h = Ok tt)
  /\ (forall wf u g h, Workflow_write_config W wf u g h = Ok tt)
  /\ (forall ws d u g h, projects_copy_data W ws d u g h = Ok tt).

(** ** Concrete arguments *)

Definition args_daemon_no_pidfile : Args :=
  {| a_command := CmdPrepare; a_target := "/w";
     a_workflow := ["repoA"]; a_commit := ["commit1"]; a_data := [];
     a_params := []; a_user := None; a_group := None; a_jobid := None;
     a_server_file := None; a_dropbox := None; a_barcode := None;
     a_daemon := true; a_pidfile := None;
     a_umask := UmaskInt 63; a_cleanup := false |}.

Definition args_run_repoA : Args :=
  {| a_command := CmdRun; a_target := "/w";
     a_workflow := ["repoA"]; a_commit := ["commit1"]; a_data := [];
     a_params := []; a_user := Some "alice"; a_group := None;
     a_jobid := Some "job7";
     a_server_file := None; a_dropbox := Some "/drop"; a_barcode := Some "B1";
     a_daemon := false; a_pidfile := None;
     a_umask := UmaskInt 63; a_cleanup := false |}.


(** Two remotes, one commit and one parameter file. *)
Definition args_two_remotes : Args :=
  {| a_command := CmdPrepare; a_target := "/w";
     a_workflow := ["repoA"; "repoB"]; a_commit := ["commit1"]; a_data := [];
     a_params := ["a.json"]; a_user := None; a_group := None; a_jobid := None;
     a_server_file := None; a_dropbox := None; a_barcode := None;
     a_daemon := false; a_pidfile := None;
     a_umask := UmaskInt 63; a_cleanup := false |}.


(** Two workflows with a parameter file each. *)
Definition args_two_params : Args :=
  {| a_command := CmdPrepare; a_target := "/w";
     a_workflow := ["repoA"; "repoB"]; a_commit := ["commit1"; "commit2"];
     a_data := []; a_params := ["a.json"; "b.json"];
     a_user := None; a_group := None; a_jobid := None;
     a_server_file := None; a_dropbox := None; a_barcode := None;
     a_daemon := false; a_pidfile := None;
     a_umask := UmaskInt 63; a_cleanup := false |}.

(** As [world_with], but the file [b.json] is not JSON. *)
Definition world_bad_params (args : Args) : World :=
  let W := world_with args [] 0 in
  {| sys_argv_parse := sys_argv_parse W;
     logging_setup := logging_setup W;
     projects_prepare := projects_prepare W;
     projects_copy_data := projects_copy_data W;
     Workflow_init := Workflow_init W;
     Workflow_name := Workflow_name W;
     Workflow_create := Workflow_create W;
     Workflow_clone := Workflow_clone W;
     Workflow_write_config := Workflow_write_config W;
     Workflow_run := Workflow_run W;
     Popen_wait := Popen_wait W;
     Workflow_commit := Workflow_commit W;
     builtin_open := builtin_open W;
     json_load := fun p _ =>
       if p =? "b.json"
       then Raise (ValueError "Expecting value: line 1 column 1 (char 0)")
       else Ok (JObj []);
     os_path_exists := os_path_exists W;
     os_path_isdir := os_path_isdir W;
     os_listdir := os_listdir W;
     shutil_rmtree := shutil_rmtree W;
     os_umask := os_umask W;
     utils_daemonize := utils_daemonize W |}.

Definition workspace_w : Workspace :=
  mkWorkspace "/w" "/w/src" "/w/var" "/w/result".

Definition workflow_repoA : Workflow :=
  mkWorkflow workspace_w None (Some "repoA") (Some "commit1") (JObj []).

(** The calls of [prepare_command] for the first of two workflows. *)
Definition trace_repoA_prepared : trace :=
  [EvOpen "a.json"; EvJsonLoad "a.json"; EvClose "a.json";
   EvWorkflow workflow_repoA; EvCreate workflow_repoA None None;
   EvClone workflow_repoA; EvWriteConfig workflow_repoA None None].

(** A commit invocation with a umask given on the command line. *)
Definition args_commit_umask : Args :=
  {| a_command := CmdCommit; a_target := "/w";
     a_workflow := []; a_commit := []; a_data := []; a_params := [];
     a_user := Some "alice"; a_group := None; a_jobid := Some "job7";
     a_server_file := None; a_dropbox := Some "/drop"; a_barcode := Some "B1";
     a_daemon := false; a_pidfile := None;
     a_umask := UmaskStr "022"; a_cleanup := true |}.

(** As [world_with], but every path exists. *)
Definition world_dropbox_exists (args : Args) : World :=
  let W := world_with args ["repoA"] 0 in
  {| sys_argv_parse := sys_argv_parse W;
     logging_setup := logging_setup W;
     projects_prepare := projects_prepare W;
     projects_copy_data := projects_copy_data W;
     Workflow_init := Workflow_init W;
     Workflow_name := Workflow_name W;
     Workflow_create := Workflow_create W;
     Workflow_clone := Workflow_clone W;
     Workflow_write_config := Workflow_write_config W;
     Workflow_run := Workflow_run W;
     Popen_wait := Popen_wait W;
     Workflow_commit := Workflow_commit W;
     builtin_open := builtin_open W;
     json_load := json_load W;
     os_path_exists := fun _ _ => true;
     os_path_isdir := os_path_isdir W;
     os_listdir := os_listdir W;
     shutil_rmtree := shutil_rmtree W;
     os_umask := os_umask W;
     utils_daemonize := utils_daemonize W |}.

(** A run invocation with two workflows and no parameter file. *)
Definition args_run_two : Args :=
  {| a_command := CmdRun; a_target := "/w";
     a_workflow := ["repoA"; "repoB"]; a_commit := ["commit1"; "commit2"];
     a_data := []; a_params := [];
     a_user := Some "alice"; a_group := None; a_jobid := Some "job7";
     a_server_file := None; a_dropbox := Some "/drop"; a_barcode := Some "B1";
     a_daemon := false; a_pidfile := None;
     a_umask := UmaskInt 63; a_cleanup := false |}.

Definition workflow_runA : Workflow :=
  mkWorkflow workspace_w None (Some "repoA") (Some "commit1") JNull.

Definition workflow_runB : Workflow :=
  mkWorkflow workspace_w None (Some "repoB") (Some "commit2") JNull.

(** ** Further predicates and worlds *)

(** The calls that [main] makes before it chooses the command. *)
Definition prologue_kind (ev : event) : bool :=
  match ev with
  | EvParseArgs | EvInitLogging _ _ | EvExists _ | EvIsdir _
  | EvLog _ _ | EvLogException _ _ => true
  | _ => false
  end.

(** The calls of [prepare_command (clone, copy_data)]: the workspace is
    prepared with [create_ok]; workflows are created, cloned and configured
    only with [clone], data is copied only with [copy_data]. *)
Definition prepare_kind (clone copy_data : bool) (ev : event) : bool :=
  match ev with
  | EvPrepare _ create_ok _ _ => create_ok
  | EvOpen _ | EvJsonLoad _ | EvClose _ | EvLogException _ _
  | EvWorkflow _ => true
  | EvCreate _ _ _ | EvClone _ | EvWriteConfig _ _ _ => clone
  | EvCopyData _ _ _ _ => copy_data
  | _ => false
  end.

Definition is_None {A} (o : option A) : bool :=
  match o with
  | None => true
  | Some _ => false
  end.

(** The calls of [commit_command]: the workspace is re-opened without
    [create_ok], user or group; the handles are opened by name alone. *)
Definition commit_kind (ev : event) : bool :=
  match ev with
  | EvLog _ _ | EvExists _ | EvListdir _ | EvCommit _ _ _ _ | EvRmtree _ => true
  | EvPrepare _ create_ok user group =>
      negb create_ok && is_None user && is_None group
  | EvWorkflow wf =>
      negb (is_None (wf_name wf)) && is_None (wf_remote wf)
        && is_None (wf_commit wf)
  | _ => false
  end.

(** The parameter files given to [json.load], and those closed. *)
Fixpoint loaded (t : trace) : list string :=
  match t with
  | [] => []
  | EvJsonLoad p :: t' => p :: loaded t'
  | _ :: t' => loaded t'
  end.

Fixpoint closed (t : trace) : list string :=
  match t with
  | [] => []
  | EvClose p :: t' => p :: closed t'
  | _ :: t' => closed t'
  end.

Definition is_umask (ev : event) : bool :=
  match ev with
  | EvUmask _ => true
  | _ => false
  end.


(** The prefix of the log records set up by [init_logging] in [main]. *)
Definition job_format (args : Args) : string :=
  "qproject - job "
    ^^ match a_jobid args with
       | Some j => j
       | None => a_target args
       end
    ^^ " - %(message)s".

(** The set-up of the log handler and the first log record of [main]. *)
Definition ev_init_logging (args : Args) : event :=
  EvInitLogging (if a_daemon args then SysLogHandler else StreamHandler)
    (job_format args).

Definition ev_starting (args : Args) : event :=
  EvLog INFO ("Starting qproject for user " ^^ py_str (a_user args)
                ^^ " with command '" ^^ command_str (a_command args)
                ^^ "' and target '" ^^ a_target args ^^ "'").

(** As [world_with], but [argparse] leaves with [e] and [os.umask]
    answers [umask]. *)
Definition world_failing (args : Args) (parse : result Args)
    (umask : result unit) : World :=
  let W := world_with args ["repoA"] 0 in
  {| sys_argv_parse := fun _ => parse;
     logging_setup := logging_setup W;
     projects_prepare := projects_prepare W;
     projects_copy_data := projects_copy_data W;
     Workflow_init := Workflow_init W;
     Workflow_name := Workflow_name W;
     Workflow_create := Workflow_create W;
     Workflow_clone := Workflow_clone W;
     Workflow_write_config := Workflow_write_config W;
     Workflow_run := Workflow_run W;
     Popen_wait := Popen_wait W;
     Workflow_commit := Workflow_commit W;
     builtin_open := builtin_open W;
     json_load := json_load W;
     os_path_exists := os_path_exists W;
     os_path_isdir := os_path_isdir W;
     os_listdir := os_listdir W;
     shutil_rmtree := shutil_rmtree W;
     os_umask := fun _ _ => umask;
     utils_daemonize := utils_daemonize W |}.

(** A daemonized run. *)
Definition args_run_daemon : Args :=
  {| a_command := CmdRun; a_target := "/w";
     a_workflow := ["repoA"]; a_commit := ["commit1"]; a_data := ["in.txt"];
     a_params := []; a_user := Some "alice"; a_group := None;
     a_jobid := None;
     a_server_file := None; a_dropbox := Some "/drop"; a_barcode := Some "B1";
     a_daemon := true; a_pidfile := Some "/var/run/qproject.pid";
     a_umask := UmaskInt 63; a_cleanup := false |}.

(** A run with a parameter file that is not JSON. *)
Definition args_run_bad_params : Args :=
  {| a_command := CmdRun; a_target := "/w";
     a_workflow := ["repoB"]; a_commit := ["commit2"]; a_data := [];
     a_params := ["b.json"]; a_user := Some "alice"; a_group := None;
     a_jobid := Some "job7";
     a_server_file := None; a_dropbox := Some "/drop"; a_barcode := Some "B1";
     a_daemon := false; a_pidfile := None;
     a_umask := UmaskInt 63; a_cleanup := false |}.

(** A prepare invocation with input data. *)
Definition args_prepare_data : Args :=
  {| a_command := CmdPrepare; a_target := "/w";
     a_workflow := ["repoA"]; a_commit := ["commit1"]; a_data := ["in.txt"];
     a_params := ["a.json"]; a_user := Some "alice"; a_group := Some "lab";
     a_jobid := None;
     a_server_file := None; a_dropbox := None; a_barcode := None;
     a_daemon := false; a_pidfile := None;
     a_umask := UmaskInt 63; a_cleanup := false |}.

(** The calls of the commit phase once [src] is listed as [names]: the
    handles opened, and the commits made. *)
Definition opens (ws : Workspace) (names : list string) : trace :=
  map (fun n => EvWorkflow (workflow_named ws n)) names.

Definition commits (args : Args) (d : string) (ws : Workspace)
    (names : list string) : trace :=
  map (fun wf => EvCommit wf d (a_user args) 63) (map (workflow_named ws) names).

(** The courses that the [try] block of [commit_command] can take: its
    outcome and its calls. *)
Inductive commit_course (args : Args) : result unit -> trace -> Prop :=
| course_unprepared (e : exn) :
    commit_course args (Raise e) [ev_commit_start; ev_prepare_open args]
| course_conflict (d : string) (ws : Workspace) :
    commit_course args (Raise (dropbox_exists_error d ws))
      [ev_commit_start; ev_prepare_open args; EvExists d]
| course_unlisted (d : string) (ws : Workspace) (e : exn) :
    commit_course args (Raise e) (commit_prefix args d ws)
| course_unopened (d : string) (ws : Workspace) (names : list string)
    (k : nat) (e : exn) :
    k < length names ->
    commit_course args (Raise e)
      (commit_prefix args d ws ++ opens ws (firstn (S k) names))
| course_uncommitted (d : string) (ws : Workspace) (names : list string)
    (k : nat) (e : exn) :
    k < length names ->
    commit_course args (Raise e)
      (commit_prefix args d ws ++ opens ws names
         ++ commits args d ws (firstn (S k) names))
| course_committed (d : string) (ws : Workspace) (names : list string) :
    a_cleanup args = false ->
    commit_course args (Ok tt)
      (commit_prefix args d ws ++ opens ws names ++ commits args d ws names)
| course_cleaned (d : string) (ws : Workspace) (names : list string)
    (r : result unit) :
    a_cleanup args = true ->
    commit_course args r
      (commit_prefix args d ws ++ opens ws names ++ commits args d ws names
         ++ [EvLog INFO "Removing workspace"; EvRmtree (ws_base ws)]).

(** * Properties *)

(** ** Concrete runs *)

Example dirname_pidfile : posixpath.dirname "/var/run/qproject.pid" = "/var/run".
Proof. reflexivity. Qed.

Example dirname_relative : posixpath.dirname "qproject.pid" = "".
Proof. reflexivity. Qed.

Example dirname_double_sep : posixpath.dirname "/a//b" = "/a".
Proof. reflexivity. Qed.

Example join_dropbox_barcode : posixpath.join2 "/drop" "B1" = "/drop/B1".
Proof. reflexivity. Qed.

Example join_absolute_barcode : posixpath.join2 "/drop" "/B1" = "/B1".
Proof. reflexivity. Qed.

Example zip_longest_two_remotes :
  zip_longest ["repoA"; "repoB"] ["commit1"] ["a.json"] =
    [(Some "repoA", Some "commit1", Some "a.json"); (Some "repoB", None, None)].
Proof. reflexivity. Qed.

(** One workflow, every collaborator succeeds: [main] exits with 0 and
    the workflow found in [src] is committed to [/drop/B1]. *)
Example main_run_scenario :
  fst (main (world_with args_run_repoA ["repoA"] 0) []) = Raise (SystemExit 0)
  /\ committed (snd (main (world_with args_run_repoA ["repoA"] 0) []))
     = [workflow_named workspace_w "repoA"].
Proof. split; reflexivity. Qed.

(** The same run when [/drop/B1] exists: [main] exits with 1 and nothing
    is committed or deleted. *)
Example main_run_scenario_conflict :
  fst (main (world_dropbox_exists args_run_repoA) []) = Raise (SystemExit 1)
  /\ forallb (fun ev => negb (is_commit_or_rmtree ev))
       (snd (main (world_dropbox_exists args_run_repoA) [])) = true.
Proof. split; reflexivity. Qed.

Example world_with_prepare_calls_succeed (args : Args) (names : list string)
    (returncode : Z) :
  prepare_calls_succeed (world_with args names returncode).
Proof. repeat split; intros; eexists; reflexivity. Qed.

(** ** The monad: a sequence that succeeds *)

Lemma bind_ok {A B} (m : M A) (k : A -> M B) (h : trace) (a : A) (es : trace) :
  m h = (Ok a, es) ->
  bind m k h = (fst (k a (h ++ es)), es ++ snd (k a (h ++ es))).
Proof.
  intros H. unfold bind. rewrite H. destruct (k a (h ++ es)); reflexivity.
Qed.

Lemma bind_fst_ok {A B} (m : M A) (k : A -> M B) (h : trace) (b : B) :
  fst (bind m k h) = Ok b ->
  exists a es, m h = (Ok a, es) /\ fst (k a (h ++ es)) = Ok b.
Proof.
  unfold bind. destruct (m h) as [[a|e] es]; [ | discriminate ].
  destruct (k a (h ++ es)) as [r es'] eqn:Hk. simpl. intros ->.
  exists a, es. rewrite Hk. auto.
Qed.

Lemma pair_eta {A B} (p : A * B) : p = (fst p, snd p).
Proof. destruct p; reflexivity. Qed.

(** ** Argument validation *)

Ltac unfold_m :=
  unfold when, bind, ret, raise, lift, call, ask, logger_info,
    logger_critical, logger_exception, sys_exit in *.

(** C7: [validate_args] raises, and then a [ValueError], exactly when one
    of the missing combinations holds: dropbox without barcode, dropbox
    without user, daemon without pidfile, daemon with a pidfile that exists
    or whose parent is not a directory, or command run or commit without
    dropbox.  All it does besides is to query the file system. *)
Theorem validate_args_raises_iff (W : World) (args : Args) (h : trace) :
  ((exists e, fst (validate_args W args h) = Raise e)
     <-> missing_combination W args h)
  /\ (forall e, fst (validate_args W args h) = Raise e -> is_ValueError e = true)
  /\ forallb is_query (snd (validate_args W args h)) = true.
Proof.
  unfold missing_combination, validate_args, path_exists, isdir_dirname,
    run_or_commit.
  destruct args as [cmd tg wfl cm dt pr us gr jb sf db bc dm pf um cl]; simpl.
  unfold_m.
  destruct (truthy db) eqn:Hdb, (truthy bc) eqn:Hbc, (truthy us) eqn:Hus,
    dm eqn:Hdm; simpl; rewrite ?app_nil_r;
    try (destruct pf as [p|]; simpl in *;
         [ destruct (negb (p =? "")) eqn:Hp; simpl; rewrite ?app_nil_r;
           [ destruct (os_path_exists W p h) eqn:Hex; simpl;
             rewrite ?app_nil_r;
             [ | destruct (os_path_isdir W (posixpath.dirname p) (h ++ [EvExists p]))
                   eqn:Hisd; simpl; rewrite ?app_nil_r ] | ]
         | ]);
    destruct cmd; simpl;
    (split; [ split;
              [ intros [e He]; try discriminate He;
                try (left; split; reflexivity);
                try (right; left; split; reflexivity);
                try (right; right; left; split; reflexivity);
                try (right; right; right; right; split; reflexivity);
                try (right; right; right; left; split;
                     [ reflexivity
                     | eexists; split; [ reflexivity | auto ] ])
              | intros H; try (eexists; reflexivity);
                exfalso;
                repeat match goal with
                  | H : _ \/ _ |- _ => destruct H
                  | H : _ /\ _ |- _ => destruct H
                  | H : exists _, _ |- _ => destruct H
                  | H : Some _ = Some _ |- _ => inversion H; subst; clear H
                  end; congruence ]
            | split; [ intros e He; inversion He; reflexivity
                     | reflexivity ] ]).
Qed.

Lemma validate_args_raises_iff_witness :
  exists e,
    fst (validate_args (world_with args_daemon_no_pidfile [] 0)
           args_daemon_no_pidfile []) = Raise e.
Proof.
  apply (proj2 (proj1 (validate_args_raises_iff
                         (world_with args_daemon_no_pidfile [] 0)
                         args_daemon_no_pidfile []))).
  right; right; left. split; reflexivity.
Defined.

Lemma truthy_Some (o : option string) :
  truthy o = true -> exists s, o = Some s.
Proof.
  destruct o as [s|]; simpl; intros H; [ exists s; reflexivity | discriminate ].
Qed.

(** Arguments that pass validation: a dropbox comes with a barcode, and
    the commands run and commit come with a dropbox. *)
Lemma validate_args_ok (W : World) (args : Args) (h : trace) :
  fst (validate_args W args h) = Ok tt ->
  (truthy (a_dropbox args) = true -> truthy (a_barcode args) = true)
  /\ (run_or_commit (a_command args) = true -> truthy (a_dropbox args) = true).
Proof.
  unfold validate_args. intros H.
  apply bind_fst_ok in H. destruct H as (u1 & es1 & Hdropbox & H).
  apply bind_fst_ok in H. destruct H as (u2 & es2 & _ & H).
  apply bind_fst_ok in H. destruct H as (u3 & es3 & _ & H).
  split.
  - intros Hdb. rewrite Hdb in Hdropbox.
    destruct (truthy (a_barcode args)); [ reflexivity | discriminate ].
  - intros Hcmd. rewrite Hcmd in H.
    destruct (truthy (a_dropbox args)); [ reflexivity | discriminate ].
Qed.

(** C9: for arguments that pass validation with command run or commit, the
    barcode is set, so the commit destination is the dropbox joined with
    the barcode and the branch joining the jobid is never taken. *)
Theorem commit_destination_is_barcode (W : World) (args : Args) (h : trace) :
  fst (validate_args W args h) = Ok tt ->
  run_or_commit (a_command args) = true ->
  truthy (a_barcode args) = true
  /\ exists d b, a_dropbox args = Some d /\ a_barcode args = Some b
       /\ commit_destination args = Ok (posixpath.join2 d b).
Proof.
  intros (Hbc & Hdb) %validate_args_ok Hcmd.
  specialize (Hdb Hcmd). specialize (Hbc Hdb).
  split; [ assumption | ].
  destruct (truthy_Some _ Hdb) as [d Hd], (truthy_Some _ Hbc) as [b Hb].
  exists d, b. unfold commit_destination. rewrite Hbc, Hd, Hb.
  repeat split.
Qed.

Lemma commit_destination_is_barcode_witness :
  truthy (a_barcode args_run_repoA) = true
  /\ exists d b, a_dropbox args_run_repoA = Some d
       /\ a_barcode args_run_repoA = Some b
       /\ commit_destination args_run_repoA = Ok (posixpath.join2 d b).
Proof.
  apply (commit_destination_is_barcode
           (world_with args_run_repoA ["repoA"] 0) args_run_repoA []);
    reflexivity.
Defined.

(** ** Traces *)

Lemma constructed_app (t1 t2 : trace) :
  constructed (t1 ++ t2) = constructed t1 ++ constructed t2.
Proof.
  induction t1 as [|ev t1 IH]; simpl; [ reflexivity | ].
  destruct ev; simpl; rewrite ?IH; reflexivity.
Qed.

Lemma cloned_app (t1 t2 : trace) :
  cloned (t1 ++ t2) = cloned t1 ++ cloned t2.
Proof.
  induction t1 as [|ev t1 IH]; simpl; [ reflexivity | ].
  destruct ev; simpl; rewrite ?IH; reflexivity.
Qed.

Lemma committed_app (t1 t2 : trace) :
  committed (t1 ++ t2) = committed t1 ++ committed t2.
Proof.
  induction t1 as [|ev t1 IH]; simpl; [ reflexivity | ].
  destruct ev; simpl; rewrite ?IH; reflexivity.
Qed.

(** ** Positional pairing of the workflow specs *)

Lemma nth_error_tl {A} (l : list A) (i : nat) :
  nth_error (tl l) i = nth_error l (S i).
Proof. destruct l; [ destruct i | ]; reflexivity. Qed.

Lemma zip_longest_fuel_nth {A B C} (fuel : nat) :
  forall (l1 : list A) (l2 : list B) (l3 : list C) (i : nat),
    length l1 + length l2 + length l3 <= fuel ->
    nth_error (zip_longest_fuel fuel l1 l2 l3) i =
      if (i <? Nat.max (length l1) (Nat.max (length l2) (length l3)))%nat
      then Some (nth_error l1 i, nth_error l2 i, nth_error l3 i)
      else None.
Proof.
  induction fuel as [|fuel IH]; intros l1 l2 l3 i Hlen.
  - destruct l1, l2, l3; simpl in Hlen; try lia.
    simpl. destruct i; reflexivity.
  - assert (Htl : length (tl l1) + length (tl l2) + length (tl l3) <= fuel
                  \/ (l1 = [] /\ l2 = [] /\ l3 = [])).
    { destruct l1, l2, l3; simpl in *; auto; left; lia. }
    destruct Htl as [Htl | (-> & -> & ->)].
    + assert (Hcons : zip_longest_fuel (S fuel) l1 l2 l3 =
                if Nat.eqb (Nat.max (length l1) (Nat.max (length l2) (length l3))) 0
                then []
                else (hd_error l1, hd_error l2, hd_error l3)
                       :: zip_longest_fuel fuel (tl l1) (tl l2) (tl l3)).
      { destruct l1, l2, l3; reflexivity. }
      rewrite Hcons.
      destruct (Nat.eqb_spec (Nat.max (length l1) (Nat.max (length l2) (length l3))) 0)
        as [Hz | Hnz].
      * rewrite Hz. destruct i; reflexivity.
      * destruct i as [|i].
        -- simpl nth_error at 1.
           destruct (Nat.ltb_spec 0 (Nat.max (length l1) (Nat.max (length l2) (length l3))));
             [ | lia ].
           destruct l1, l2, l3; reflexivity.
        -- simpl nth_error at 1. rewrite (IH _ _ _ i Htl).
           rewrite !nth_error_tl.
           assert (Hm : Nat.max (length (tl l1)) (Nat.max (length (tl l2)) (length (tl l3)))
                        = pred (Nat.max (length l1) (Nat.max (length l2) (length l3)))).
           { destruct l1, l2, l3; simpl length; simpl tl; lia. }
           rewrite Hm.
           destruct (Nat.ltb_spec i (pred (Nat.max (length l1) (Nat.max (length l2) (length l3))))),
             (Nat.ltb_spec (S i) (Nat.max (length l1) (Nat.max (length l2) (length l3))));
             try reflexivity; lia.
    + simpl. destruct i; reflexivity.
Qed.

(** [zip_longest] pairs the entries by position and fills with [None]. *)
Lemma zip_longest_nth {A B C} (l1 : list A) (l2 : list B) (l3 : list C)
    (i : nat) :
  nth_error (zip_longest l1 l2 l3) i =
    if (i <? Nat.max (length l1) (Nat.max (length l2) (length l3)))%nat
    then Some (nth_error l1 i, nth_error l2 i, nth_error l3 i)
    else None.
Proof. unfold zip_longest. apply zip_longest_fuel_nth. lia. Qed.

Lemma zip_longest_length {A B C} (l1 : list A) (l2 : list B) (l3 : list C) :
  length (zip_longest l1 l2 l3) =
    Nat.max (length l1) (Nat.max (length l2) (length l3)).
Proof.
  set (n := Nat.max (length l1) (Nat.max (length l2) (length l3))).
  destruct (Nat.lt_trichotomy (length (zip_longest l1 l2 l3)) n) as [Hlt | [Heq | Hgt]].
  - exfalso.
    assert (H := zip_longest_nth l1 l2 l3 (length (zip_longest l1 l2 l3))).
    fold n in H. destruct (Nat.ltb_spec (length (zip_longest l1 l2 l3)) n); [ | lia ].
    rewrite (proj2 (nth_error_None _ _)) in H; [ discriminate | lia ].
  - assumption.
  - exfalso.
    assert (H := zip_longest_nth l1 l2 l3 n).
    fold n in H. destruct (Nat.ltb_spec n n); [ lia | ].
    apply nth_error_None in H. lia.
Qed.

(** ** The loop of [prepare_command] *)

Ltac case_result :=
  match goal with
  | |- context [match ?r with Ok _ => _ | Raise _ => _ end] =>
      destruct r eqn:?; simpl
  end.

Section PrepareLoop.

Variable W : World.
Variable args : Args.
Variable clone : bool.
Variable workspace : Workspace.

Lemma load_params_quiet (p : string) (h : trace) :
  constructed (snd (load_params W p h)) = []
  /\ cloned (snd (load_params W p h)) = [].
Proof.
  unfold load_params, bind, call, try_finally, try_except_ValueError.
  destruct (builtin_open W p h); simpl; [ | split; reflexivity ].
  destruct (json_load W p (h ++ [EvOpen p])) as [j|e]; simpl;
    [ | destruct (is_ValueError e); simpl ]; split; reflexivity.
Qed.

Lemma read_params_quiet (params : option string) (h : trace) :
  constructed (snd (read_params W params h)) = []
  /\ cloned (snd (read_params W params h)) = [].
Proof.
  unfold read_params. destruct (truthy params), params as [p|];
    try (split; reflexivity). apply load_params_quiet.
Qed.

Lemma read_params_absent (params : option string) (h : trace) (j : json)
    (es : trace) :
  truthy params = false -> read_params W params h = (Ok j, es) -> j = JNull.
Proof.
  unfold read_params. intros ->. unfold ret. intros H. inversion H; reflexivity.
Qed.

Lemma clone_steps_constructed (wf : Workflow) (h : trace) :
  constructed (snd (when clone (clone_steps W args wf) h)) = [].
Proof.
  unfold when, clone_steps, bind, call, ret. destruct clone; [ | reflexivity ].
  repeat case_result; reflexivity.
Qed.

(** One turn of the loop, outcome by outcome. *)
Lemma prepare_loop_cons (remote commit params : option string)
    (rest : list (option string * option string * option string)) (h : trace) :
  prepare_loop W args clone workspace ((remote, commit, params) :: rest) h =
    match read_params W params h with
    | (Raise e, es1) => (Raise e, es1)
    | (Ok j, es1) =>
        let wf := mkWorkflow workspace None remote commit j in
        match Workflow_init W wf (h ++ es1) with
        | Raise e => (Raise e, es1 ++ [EvWorkflow wf])
        | Ok _ =>
            match when clone (clone_steps W args wf) (h ++ es1 ++ [EvWorkflow wf]) with
            | (Raise e, es2) => (Raise e, es1 ++ EvWorkflow wf :: es2)
            | (Ok _, es2) =>
                match prepare_loop W args clone workspace rest
                        (h ++ es1 ++ EvWorkflow wf :: es2) with
                | (Raise e, es3) => (Raise e, es1 ++ EvWorkflow wf :: es2 ++ es3)
                | (Ok wfs, es3) => (Ok (wf :: wfs), es1 ++ EvWorkflow wf :: es2 ++ es3)
                end
            end
        end
    end.
Proof.
  simpl. unfold bind at 1. destruct (read_params W params h) as [[j|e] es1];
    [ | reflexivity ].
  unfold bind at 1, call at 1.
  destruct (Workflow_init W _ (h ++ es1)) as [u|e]; [ | reflexivity ].
  unfold bind at 1. rewrite <- !app_assoc. simpl.
  destruct (when clone _ _) as [[u'|e] es2]; [ | reflexivity ].
  unfold bind at 1, ret. rewrite <- !app_assoc. simpl.
  destruct (prepare_loop W args clone workspace rest _) as [[wfs|e] es3];
    simpl; rewrite ?app_nil_r; reflexivity.
Qed.

(** Every workflow constructed by the loop is built from the spec at its
    position. *)
Lemma prepare_loop_constructed :
  forall specs h i wf,
    nth_error (constructed (snd (prepare_loop W args clone workspace specs h))) i
      = Some wf ->
    exists spec, nth_error specs i = Some spec /\ built_from workspace spec wf.
Proof.
  induction specs as [|[[remote commit] params] rest IH]; intros h i wf Hnth.
  - destruct i; discriminate.
  - rewrite prepare_loop_cons in Hnth.
    assert (Hq := proj1 (read_params_quiet params h)).
    destruct (read_params W params h) as [[j|e] es1] eqn:Hrp; simpl in Hq.
    2:{ simpl in Hnth. rewrite Hq in Hnth. destruct i; discriminate. }
    assert (Hbuilt : built_from workspace (remote, commit, params)
                       (mkWorkflow workspace None remote commit j)).
    { unfold built_from; simpl. repeat split.
      intros Ht. exact (read_params_absent _ _ _ _ Ht Hrp). }
    cbv zeta in Hnth.
    set (wf0 := mkWorkflow workspace None remote commit j) in *.
    assert (Hc := clone_steps_constructed wf0 (h ++ es1 ++ [EvWorkflow wf0])).
    assert (Hhead : forall tl, constructed (es1 ++ EvWorkflow wf0 :: tl)
                               = wf0 :: constructed tl).
    { intros tl. rewrite constructed_app, Hq. reflexivity. }
    destruct (Workflow_init W wf0 (h ++ es1)) as [u|e].
    2:{ simpl in Hnth. rewrite Hhead in Hnth.
        destruct i as [|[|i]]; try discriminate.
        inversion Hnth; subst. eexists; split; [ reflexivity | exact Hbuilt ]. }
    destruct (when clone (clone_steps W args wf0) (h ++ es1 ++ [EvWorkflow wf0]))
      as [[u'|e] es2]; simpl in Hc.
    2:{ simpl in Hnth. rewrite Hhead, Hc in Hnth.
        destruct i as [|[|i]]; try discriminate.
        inversion Hnth; subst. eexists; split; [ reflexivity | exact Hbuilt ]. }
    specialize (IH (h ++ es1 ++ EvWorkflow wf0 :: es2)).
    assert (Hrest : nth_error
                      (wf0 :: constructed
                                (snd (prepare_loop W args clone workspace rest
                                        (h ++ es1 ++ EvWorkflow wf0 :: es2)))) i
                    = Some wf).
    { destruct (prepare_loop W args clone workspace rest _) as [[wfs|e] es3];
        simpl in Hnth |- *; rewrite Hhead, constructed_app, Hc in Hnth;
        exact Hnth. }
    destruct i as [|i]; simpl in Hrest.
    + inversion Hrest; subst. eexists; split; [ reflexivity | exact Hbuilt ].
    + simpl. apply IH. exact Hrest.
Qed.

(** On success the loop returns the workflows it constructed, one per
    spec. *)
Lemma prepare_loop_ok :
  forall specs h wfs es,
    prepare_loop W args clone workspace specs h = (Ok wfs, es) ->
    wfs = constructed es /\ length wfs = length specs
    /\ cloned es = if clone then wfs else [].
Proof.
  induction specs as [|[[remote commit] params] rest IH]; intros h wfs es H.
  - inversion H; subst. destruct clone; repeat split.
  - rewrite prepare_loop_cons in H.
    assert (Hq := read_params_quiet params h).
    destruct (read_params W params h) as [[j|e] es1]; [ | discriminate ].
    simpl in Hq. destruct Hq as [Hq1 Hq2]. cbv zeta in H.
    set (wf0 := mkWorkflow workspace None remote commit j) in *.
    destruct (Workflow_init W wf0 (h ++ es1)) as [u|e]; [ | discriminate ].
    assert (Hc := clone_steps_constructed wf0 (h ++ es1 ++ [EvWorkflow wf0])).
    assert (Hcl : forall u' es2,
               when clone (clone_steps W args wf0) (h ++ es1 ++ [EvWorkflow wf0])
                 = (Ok u', es2) ->
               cloned es2 = if clone then [wf0] else []).
    { unfold when, clone_steps, bind, call, ret. destruct clone.
      - intros u' es2. repeat case_result; intros Heq; inversion Heq; reflexivity.
      - intros u' es2 Heq; inversion Heq; reflexivity. }
    destruct (when clone (clone_steps W args wf0) (h ++ es1 ++ [EvWorkflow wf0]))
      as [[u'|e] es2]; [ | discriminate ].
    specialize (Hcl u' es2 eq_refl). simpl in Hc.
    destruct (prepare_loop W args clone workspace rest _) as [[wfs'|e] es3] eqn:Hrest;
      [ | discriminate ].
    inversion H; subst. clear H.
    destruct (IH _ _ _ Hrest) as (Hw & Hl & Hcr).
    rewrite constructed_app, Hq1, cloned_app, Hq2. simpl.
    rewrite constructed_app, Hc, cloned_app, Hcl, Hcr, <- Hw. simpl.
    repeat split; [ now rewrite Hl | destruct clone; reflexivity ].
Qed.

(** Where no call raises, the loop does not raise either. *)
Lemma prepare_loop_total :
  prepare_calls_succeed W ->
  forall specs h, exists wfs, fst (prepare_loop W args clone workspace specs h) = Ok wfs.
Proof.
  intros (_ & Hinit & Hopen & Hjson & Hcreate & Hclone & Hconf & _).
  induction specs as [|[[remote commit] params] rest IH]; intros h.
  - exists []. reflexivity.
  - rewrite prepare_loop_cons.
    assert (Hrp : exists j, fst (read_params W params h) = Ok j).
    { unfold read_params. destruct (truthy params), params as [p|];
        try (exists JNull; reflexivity).
      unfold load_params, bind, call, try_finally, try_except_ValueError.
      rewrite Hopen. destruct (Hjson p (h ++ [EvOpen p])) as [j ->].
      exists j. reflexivity. }
    destruct Hrp as [j Hrp].
    destruct (read_params W params h) as [[j'|e] es1]; simpl in Hrp;
      [ | discriminate ].
    cbv zeta. rewrite Hinit.
    assert (Hw : exists es2,
               when clone (clone_steps W args (mkWorkflow workspace None remote commit j'))
                 (h ++ es1 ++ [EvWorkflow (mkWorkflow workspace None remote commit j')])
               = (Ok tt, es2)).
    { unfold when, clone_steps, bind, call, ret. destruct clone.
      - rewrite Hcreate, Hclone, Hconf. eexists; reflexivity.
      - eexists; reflexivity. }
    destruct Hw as [es2 ->].
    destruct (IH (h ++ es1 ++ EvWorkflow (mkWorkflow workspace None remote commit j') :: es2))
      as [wfs Hwfs].
    destruct (prepare_loop W args clone workspace rest _) as [[wfs'|e] es3];
      simpl in Hwfs; [ | discriminate ].
    eexists; reflexivity.
Qed.

(** The calls of the loop are of the kinds below only. *)
Lemma prepare_loop_events (P : event -> Prop) :
  (forall p, P (EvOpen p)) ->
  (forall p, P (EvJsonLoad p)) ->
  (forall msg e, P (EvLogException msg e)) ->
  (forall p, P (EvClose p)) ->
  (forall wf, P (EvWorkflow wf)) ->
  (forall wf u g, clone = true -> P (EvCreate wf u g)) ->
  (forall wf, clone = true -> P (EvClone wf)) ->
  (forall wf u g, clone = true -> P (EvWriteConfig wf u g)) ->
  forall specs h, Forall P (snd (prepare_loop W args clone workspace specs h)).
Proof.
  intros Popen Pjson Pexc Pclose Pwf Pcreate Pclone Pconf.
  induction specs as [|[[remote commit] params] rest IH]; intros h.
  - constructor.
  - rewrite prepare_loop_cons.
    assert (Hrp : Forall P (snd (read_params W params h))).
    { unfold read_params. destruct (truthy params), params as [p|];
        try constructor.
      unfold load_params, bind, call, try_finally, try_except_ValueError,
        logger_exception, raise.
      destruct (builtin_open W p h); [ | repeat constructor; auto ].
      destruct (json_load W p _) as [j|e]; [ repeat constructor; auto | ].
      destruct (is_ValueError e); repeat constructor; auto. }
    destruct (read_params W params h) as [[j|e] es1]; cbn [snd] in Hrp;
      [ | exact Hrp ].
    cbv zeta. set (wf0 := mkWorkflow workspace None remote commit j).
    destruct (Workflow_init W wf0 _);
      [ | cbn [snd]; rewrite Forall_app; split; [ exact Hrp | repeat constructor; auto ] ].
    assert (Hcs : Forall P (snd (when clone (clone_steps W args wf0)
                                   (h ++ es1 ++ [EvWorkflow wf0])))).
    { unfold when, clone_steps, bind, call, ret.
      destruct clone; [ | constructor ].
      repeat case_result; repeat constructor; auto. }
    destruct (when clone _ _) as [[u'|e] es2]; cbn [snd] in Hcs.
    + specialize (IH (h ++ es1 ++ EvWorkflow wf0 :: es2)).
      destruct (prepare_loop W args clone workspace rest _) as [[wfs|e] es3];
        cbn [snd] in *; rewrite Forall_app; split; auto;
        constructor; auto; rewrite Forall_app; split; auto.
    + cbn [snd]. rewrite Forall_app. split; auto.
Qed.

End PrepareLoop.

(** ** [prepare_command] *)

Section PrepareCommand.

Variable W : World.
Variable args : Args.

Lemma prepare_command_unfold (clone copy_data : bool) (h : trace) :
  prepare_command W args clone copy_data h =
    match projects_prepare W (a_target args) true (a_user args) (a_group args) h with
    | Raise e => (Raise e, [ev_prepare_create args])
    | Ok ws =>
        match prepare_loop W args clone ws
                (zip_longest (a_workflow args) (a_commit args) (a_params args))
                (h ++ [ev_prepare_create args]) with
        | (Raise e, es) => (Raise e, ev_prepare_create args :: es)
        | (Ok wfs, es) =>
            match when (nonempty (a_data args) && copy_data)
                    (copy_data_call W args ws) (h ++ ev_prepare_create args :: es) with
            | (Raise e, es2) => (Raise e, ev_prepare_create args :: es ++ es2)
            | (Ok _, es2) => (Ok (ws, wfs), ev_prepare_create args :: es ++ es2)
            end
        end
    end.
Proof.
  unfold prepare_command, ev_prepare_create.
  unfold bind at 1, call at 1.
  destruct (projects_prepare W _ _ _ _ h) as [ws|e]; [ | reflexivity ].
  unfold bind at 1. destruct (prepare_loop W args clone ws _ _) as [[wfs|e] es];
    [ | reflexivity ].
  unfold bind at 1. rewrite <- !app_assoc. simpl.
  destruct (when _ _ _) as [[u|e] es2]; [ | reflexivity ].
  unfold ret. simpl. rewrite app_nil_r. reflexivity.
Qed.

Lemma copy_data_quiet (b : bool) (ws : Workspace) (h : trace) :
  constructed (snd (when b (copy_data_call W args ws) h)) = []
  /\ cloned (snd (when b (copy_data_call W args ws) h)) = [].
Proof. destruct b; split; reflexivity. Qed.

(** The workflows constructed by [prepare_command] are those constructed
    by its loop. *)
Lemma prepare_command_constructed (clone copy_data : bool) (h : trace) :
  constructed (snd (prepare_command W args clone copy_data h)) = []
  \/ exists ws,
       constructed (snd (prepare_command W args clone copy_data h)) =
         constructed (snd (prepare_loop W args clone ws
                             (zip_longest (a_workflow args) (a_commit args)
                                (a_params args))
                             (h ++ [ev_prepare_create args]))).
Proof.
  rewrite prepare_command_unfold.
  destruct (projects_prepare W _ _ _ _ h) as [ws|e]; [ | left; reflexivity ].
  right. exists ws.
  destruct (prepare_loop W args clone ws _ _) as [[wfs|e] es]; [ | reflexivity ].
  assert (Hq := proj1 (copy_data_quiet (nonempty (a_data args) && copy_data) ws
                         (h ++ ev_prepare_create args :: es))).
  destruct (when _ _ _) as [[u|e] es2]; simpl in *;
    rewrite constructed_app, Hq, app_nil_r; reflexivity.
Qed.

(** [prepare_command] without cloning and copying, as [run_command] calls
    it, never starts the commit phase. *)
Lemma prepare_command_no_commit_start (h : trace) :
  count_commit_starts (snd (prepare_command W args false false h)) = 0.
Proof.
  assert (Hcount : forall t, Forall (fun ev => is_commit_start ev = false) t ->
                             count_commit_starts t = 0).
  { unfold count_commit_starts. induction 1 as [|ev t Hev _ IH]; simpl;
      [ reflexivity | rewrite Hev; exact IH ]. }
  apply Hcount. rewrite prepare_command_unfold.
  destruct (projects_prepare W _ _ _ _ h) as [ws|e];
    [ | repeat constructor ].
  assert (Hloop := prepare_loop_events W args false ws
                     (fun ev => is_commit_start ev = false)).
  match goal with
  | |- context [prepare_loop W args false ws ?specs ?h'] =>
      specialize (Hloop (fun _ => eq_refl) (fun _ => eq_refl)
                    (fun _ _ => eq_refl) (fun _ => eq_refl) (fun _ => eq_refl)
                    (fun _ _ _ H => False_ind _ (Bool.diff_false_true H))
                    (fun _ H => False_ind _ (Bool.diff_false_true H))
                    (fun _ _ _ H => False_ind _ (Bool.diff_false_true H))
                    specs h');
      destruct (prepare_loop W args false ws specs h') as [[wfs|e] es]
  end; cbn [snd] in Hloop.
  - rewrite andb_false_r. cbn [when ret snd].
    constructor; [ reflexivity | ]. rewrite app_nil_r. exact Hloop.
  - constructor; [ reflexivity | exact Hloop ].
Qed.

End PrepareCommand.

(** C6: the remote, commit and params lists are paired by position and a
    missing counterpart is [None]: the workflow constructed at index [i]
    has the remote and the commit at index [i] of their lists, if any, and
    no parameters when the params list has no entry at [i].  On success
    there is one workflow per index up to the longest list, and unequal
    lengths raise nothing where no collaborator does. *)
Theorem prepare_command_pairs_positionally (W : World) (args : Args)
    (clone copy_data : bool) (h : trace) :
  (forall i wf,
      nth_error (constructed (snd (prepare_command W args clone copy_data h))) i
        = Some wf ->
      wf_remote wf = nth_error (a_workflow args) i
      /\ wf_commit wf = nth_error (a_commit args) i
      /\ (nth_error (a_params args) i = None -> wf_params wf = JNull))
  /\ (forall ws wfs,
         fst (prepare_command W args clone copy_data h) = Ok (ws, wfs) ->
         wfs = constructed (snd (prepare_command W args clone copy_data h))
         /\ length wfs = Nat.max (length (a_workflow args))
                           (Nat.max (length (a_commit args))
                              (length (a_params args))))
  /\ (prepare_calls_succeed W ->
      exists ws wfs, fst (prepare_command W args clone copy_data h) = Ok (ws, wfs)).
Proof.
  split; [ | split ].
  - intros i wf Hnth.
    destruct (prepare_command_constructed W args clone copy_data h) as [Hnil | [ws Hc]].
    { rewrite Hnil in Hnth. destruct i; discriminate. }
    rewrite Hc in Hnth.
    destruct (prepare_loop_constructed _ _ _ _ _ _ _ _ Hnth)
      as (spec & Hspec & _ & _ & Hr & Hcm & Hp).
    rewrite zip_longest_nth in Hspec.
    destruct (_ <? _)%nat; [ | discriminate ].
    inversion Hspec; subst spec; simpl in *.
    repeat split; try assumption.
    intros Hnone. apply Hp. rewrite Hnone. reflexivity.
  - intros ws wfs Hok. rewrite prepare_command_unfold in *.
    destruct (projects_prepare W _ _ _ _ h) as [ws'|e]; [ | discriminate ].
    destruct (prepare_loop W args clone ws' _ _) as [[wfs'|e] es] eqn:Hloop;
      [ | discriminate ].
    assert (Hq := proj1 (copy_data_quiet W args (nonempty (a_data args) && copy_data)
                           ws' (h ++ ev_prepare_create args :: es))).
    destruct (when _ _ _) as [[u|e] es2]; [ | discriminate ].
    simpl in *. inversion Hok; subst.
    destruct (prepare_loop_ok _ _ _ _ _ _ _ _ Hloop) as (Hw & Hl & _).
    rewrite constructed_app, Hq, app_nil_r, <- Hw, Hl, zip_longest_length.
    split; reflexivity.
  - intros Hcalm. rewrite prepare_command_unfold.
    destruct (proj1 Hcalm (a_target args) true (a_user args) (a_group args) h)
      as [ws ->].
    destruct (prepare_loop_total W args clone ws Hcalm
                (zip_longest (a_workflow args) (a_commit args) (a_params args))
                (h ++ [ev_prepare_create args])) as [wfs Hwfs].
    destruct (prepare_loop W args clone ws _ _) as [[wfs'|e] es];
      simpl in Hwfs; [ | discriminate ].
    unfold when, copy_data_call, call, ret.
    destruct (nonempty (a_data args) && copy_data).
    + rewrite (proj2 (proj2 (proj2 (proj2 (proj2 (proj2 (proj2 Hcalm))))))).
      eexists; eexists; reflexivity.
    + eexists; eexists; reflexivity.
Qed.

Lemma prepare_command_pairs_positionally_witness :
  wf_remote (mkWorkflow (mkWorkspace "/w" "/w/src" "/w/var" "/w/result")
               None (Some "repoB") None JNull)
    = nth_error (a_workflow args_two_remotes) 1
  /\ wf_commit (mkWorkflow (mkWorkspace "/w" "/w/src" "/w/var" "/w/result")
                  None (Some "repoB") None JNull)
       = nth_error (a_commit args_two_remotes) 1
  /\ (nth_error (a_params args_two_remotes) 1 = None ->
      wf_params (mkWorkflow (mkWorkspace "/w" "/w/src" "/w/var" "/w/result")
                   None (Some "repoB") None JNull) = JNull).
Proof.
  apply (proj1 (prepare_command_pairs_positionally
                  (world_with args_two_remotes [] 0) args_two_remotes
                  true true []) 1).
  reflexivity.
Defined.

(** ** A malformed parameter file *)

Section BadParams.

Variable W : World.
Variable args : Args.
Variable clone : bool.
Variable workspace : Workspace.

(** The loop over [pre ++ rest], once the turns for [pre] succeeded. *)
Lemma prepare_loop_app :
  forall pre rest h wfs es,
    prepare_loop W args clone workspace pre h = (Ok wfs, es) ->
    prepare_loop W args clone workspace (pre ++ rest) h =
      match prepare_loop W args clone workspace rest (h ++ es) with
      | (Raise e, es') => (Raise e, es ++ es')
      | (Ok wfs', es') => (Ok (wfs ++ wfs'), es ++ es')
      end.
Proof.
  induction pre as [|[[remote commit] params] pre IH]; intros rest h wfs es H.
  - inversion H; subst. rewrite app_nil_r. simpl.
    destruct (prepare_loop W args clone workspace rest h) as [[wfs'|e] es'];
      reflexivity.
  - rewrite <- app_comm_cons, prepare_loop_cons.
    rewrite prepare_loop_cons in H.
    destruct (read_params W params h) as [[j|e] es1]; [ | discriminate ].
    cbv zeta in *.
    destruct (Workflow_init W _ (h ++ es1)) as [u|e]; [ | discriminate ].
    destruct (when clone _ _) as [[u'|e] es2]; [ | discriminate ].
    destruct (prepare_loop W args clone workspace pre _) as [[wfs0|e] es3] eqn:Hpre;
      [ | discriminate ].
    inversion H; subst. clear H.
    rewrite (IH rest _ _ _ Hpre).
    replace (h ++ es1 ++ EvWorkflow (mkWorkflow workspace None remote commit j)
               :: es2 ++ es3)
      with ((h ++ es1 ++ EvWorkflow (mkWorkflow workspace None remote commit j)
               :: es2) ++ es3)
      by (rewrite <- !app_assoc; reflexivity).
    destruct (prepare_loop W args clone workspace rest _) as [[wfs'|e] es'];
      rewrite <- !app_assoc; simpl; rewrite <- ?app_assoc; reflexivity.
Qed.

(** A parameter file that [json.load] rejects with a [ValueError]. *)
Lemma load_params_malformed (p : string) (h : trace) (msg : string) :
  builtin_open W p h = Ok tt ->
  json_load W p (h ++ [EvOpen p]) = Raise (ValueError msg) ->
  load_params W p h =
    (Raise (ValueError msg),
     [EvOpen p; EvJsonLoad p;
      EvLogException ("Invalid parameter file: " ^^ p) (ValueError msg);
      EvClose p]).
Proof.
  intros Ho Hj.
  unfold load_params, bind, call, try_finally, try_except_ValueError,
    logger_exception, raise.
  rewrite Ho, Hj. reflexivity.
Qed.

End BadParams.

(** C4, as amended: a parameter file that is not JSON is fatal, and the
    error comes before the workflow of that file, and every later one, is
    constructed, created or cloned; the workflows of the earlier specs
    have been constructed, and cloned when cloning was asked for. *)
Theorem prepare_command_malformed_params (W : World) (args : Args)
    (clone copy_data : bool) (h : trace) (ws : Workspace)
    (pre post : list (option string * option string * option string))
    (remote commit : option string) (p : string)
    (wfs : list Workflow) (es : trace) (msg : string) :
  projects_prepare W (a_target args) true (a_user args) (a_group args) h = Ok ws ->
  zip_longest (a_workflow args) (a_commit args) (a_params args)
    = pre ++ (remote, commit, Some p) :: post ->
  p <> "" ->
  prepare_loop W args clone ws pre (h ++ [ev_prepare_create args]) = (Ok wfs, es) ->
  builtin_open W p (h ++ ev_prepare_create args :: es) = Ok tt ->
  json_load W p (h ++ ev_prepare_create args :: es ++ [EvOpen p])
    = Raise (ValueError msg) ->
  prepare_command W args clone copy_data h =
    (Raise (ValueError msg),
     ev_prepare_create args :: es
       ++ [EvOpen p; EvJsonLoad p;
           EvLogException ("Invalid parameter file: " ^^ p) (ValueError msg);
           EvClose p])
  /\ constructed (snd (prepare_command W args clone copy_data h)) = wfs
  /\ cloned (snd (prepare_command W args clone copy_data h))
     = if clone then wfs else [].
Proof.
  intros Hprep Hzip Hp Hpre Hopen Hjson.
  assert (Hout : prepare_command W args clone copy_data h =
    (Raise (ValueError msg),
     ev_prepare_create args :: es
       ++ [EvOpen p; EvJsonLoad p;
           EvLogException ("Invalid parameter file: " ^^ p) (ValueError msg);
           EvClose p])).
  { rewrite prepare_command_unfold, Hprep, Hzip.
    rewrite (prepare_loop_app _ _ _ _ _ _ _ _ _ Hpre), prepare_loop_cons.
    unfold read_params, truthy.
    rewrite (proj2 (String.eqb_neq p "") Hp). cbn [negb].
    replace ((h ++ [ev_prepare_create args]) ++ es)
      with (h ++ ev_prepare_create args :: es)
      by (rewrite <- app_assoc; reflexivity).
    rewrite (load_params_malformed W p _ msg Hopen);
      [ reflexivity | rewrite <- app_assoc; exact Hjson ]. }
  rewrite Hout. split; [ reflexivity | ].
  destruct (prepare_loop_ok _ _ _ _ _ _ _ _ Hpre) as (Hw & _ & Hc).
  simpl snd. unfold ev_prepare_create. simpl.
  rewrite constructed_app, cloned_app, <- Hw, Hc. simpl.
  rewrite !app_nil_r. split; reflexivity.
Qed.

Lemma prepare_command_malformed_params_witness :
  prepare_command (world_bad_params args_two_params) args_two_params true true [] =
    (Raise (ValueError "Expecting value: line 1 column 1 (char 0)"),
     ev_prepare_create args_two_params :: trace_repoA_prepared
       ++ [EvOpen "b.json"; EvJsonLoad "b.json";
           EvLogException ("Invalid parameter file: " ^^ "b.json")
             (ValueError "Expecting value: line 1 column 1 (char 0)");
           EvClose "b.json"])
  /\ constructed (snd (prepare_command (world_bad_params args_two_params)
                         args_two_params true true [])) = [workflow_repoA]
  /\ cloned (snd (prepare_command (world_bad_params args_two_params)
                    args_two_params true true []))
     = if true then [workflow_repoA] else [].
Proof.
  apply (prepare_command_malformed_params
           (world_bad_params args_two_params) args_two_params true true []
           workspace_w [(Some "repoA", Some "commit1", Some "a.json")] []
           (Some "repoB") (Some "commit2") "b.json").
  - reflexivity.
  - reflexivity.
  - discriminate.
  - reflexivity.
  - reflexivity.
  - reflexivity.
Defined.

(** C4 as stated fails: with two workflows of which the second has a
    malformed parameter file, the first workflow is cloned before the
    error is raised. *)
Lemma prepare_command_clones_before_malformed_params :
  fst (prepare_command (world_bad_params args_two_params) args_two_params
         true true [])
    = Raise (ValueError "Expecting value: line 1 column 1 (char 0)")
  /\ cloned (snd (prepare_command (world_bad_params args_two_params)
                    args_two_params true true []))
     = [workflow_repoA]
  /\ In (EvClone workflow_repoA)
       (snd (prepare_command (world_bad_params args_two_params)
               args_two_params true true [])).
Proof.
  split; [ reflexivity | split; [ reflexivity | ] ].
  vm_compute. do 6 right. left. reflexivity.
Qed.

(** ** The commit phase *)

Section CommitPhase.

Variable W : World.
Variable args : Args.

Lemma commit_command_unfold (h : trace) :
  commit_command W args h =
    match commit_try W args h with
    | (Ok u, es) => (Ok u, es)
    | (Raise e, es) => (Raise e, es ++ [ev_commit_failed])
    end.
Proof.
  unfold commit_command, try_except_all.
  destruct (commit_try W args h) as [[u|e] es]; reflexivity.
Qed.

Lemma open_workflows_cons (ws : Workspace) (name : string)
    (rest : list string) (h : trace) :
  open_workflows W ws (name :: rest) h =
    match Workflow_init W (workflow_named ws name) h with
    | Raise e => (Raise e, [EvWorkflow (workflow_named ws name)])
    | Ok _ =>
        match open_workflows W ws rest
                (h ++ [EvWorkflow (workflow_named ws name)]) with
        | (Raise e, es) => (Raise e, EvWorkflow (workflow_named ws name) :: es)
        | (Ok wfs, es) =>
            (Ok (workflow_named ws name :: wfs),
             EvWorkflow (workflow_named ws name) :: es)
        end
    end.
Proof.
  simpl. unfold bind, call, ret.
  destruct (Workflow_init W (workflow_named ws name) h) as [u|e];
    [ | reflexivity ].
  destruct (open_workflows W ws rest _) as [[wfs|e] es]; simpl;
    rewrite ?app_nil_r; reflexivity.
Qed.

(** The comprehension opens the names in order; it stops at the first
    constructor that raises. *)
Lemma open_workflows_unfold (ws : Workspace) :
  forall names h,
    (exists k e, k < length names
       /\ open_workflows W ws names h =
            (Raise e, map (fun n => EvWorkflow (workflow_named ws n))
                        (firstn (S k) names)))
    \/ open_workflows W ws names h =
         (Ok (map (workflow_named ws) names),
          map (fun n => EvWorkflow (workflow_named ws n)) names).
Proof.
  induction names as [|name rest IH]; intros h.
  - right. reflexivity.
  - rewrite open_workflows_cons.
    destruct (Workflow_init W (workflow_named ws name) h) as [u|e].
    + destruct (IH (h ++ [EvWorkflow (workflow_named ws name)]))
        as [(k & e & Hk & Heq) | Heq]; rewrite Heq.
      * left. exists (S k), e. split; [ simpl; lia | reflexivity ].
      * right. reflexivity.
    + left. exists 0, e. split; [ simpl; lia | reflexivity ].
Qed.

Lemma commit_loop_cons (d : string) (wf : Workflow) (rest : list Workflow)
    (h : trace) :
  commit_loop W args d (wf :: rest) h =
    match Workflow_commit W wf d (a_user args) 63 h with
    | Raise e => (Raise e, [EvCommit wf d (a_user args) 63])
    | Ok _ =>
        match commit_loop W args d rest
                (h ++ [EvCommit wf d (a_user args) 63]) with
        | (r, es) => (r, EvCommit wf d (a_user args) 63 :: es)
        end
    end.
Proof.
  simpl. unfold bind, call.
  destruct (Workflow_commit W wf d (a_user args) 63 h) as [u|e];
    [ | reflexivity ].
  destruct (commit_loop W args d rest _) as [r es]; reflexivity.
Qed.

(** The loop commits the workflows in order, each with the destination,
    the user and the umask [0o077]; it stops at the first commit that
    raises. *)
Lemma commit_loop_unfold (d : string) :
  forall wfs h,
    (exists k e, k < length wfs
       /\ commit_loop W args d wfs h =
            (Raise e, map (fun wf => EvCommit wf d (a_user args) 63)
                        (firstn (S k) wfs)))
    \/ commit_loop W args d wfs h =
         (Ok tt, map (fun wf => EvCommit wf d (a_user args) 63) wfs).
Proof.
  induction wfs as [|wf rest IH]; intros h.
  - right. reflexivity.
  - rewrite commit_loop_cons.
    destruct (Workflow_commit W wf d (a_user args) 63 h) as [u|e].
    + destruct (IH (h ++ [EvCommit wf d (a_user args) 63]))
        as [(k & e & Hk & Heq) | Heq]; rewrite Heq.
      * left. exists (S k), e. split; [ simpl; lia | reflexivity ].
      * right. reflexivity.
    + left. exists 0, e. split; [ simpl; lia | reflexivity ].
Qed.

(** The [try] block of the commit phase, outcome by outcome. *)
Lemma commit_try_unfold (h : trace) :
  commit_try W args h =
    match projects_prepare W (a_target args) false None None
            (h ++ [ev_commit_start]) with
    | Raise e => (Raise e, [ev_commit_start; ev_prepare_open args])
    | Ok ws =>
        match commit_destination args with
        | Raise e => (Raise e, [ev_commit_start; ev_prepare_open args])
        | Ok d =>
            if os_path_exists W d (h ++ [ev_commit_start; ev_prepare_open args])
            then (Raise (dropbox_exists_error d ws),
                  [ev_commit_start; ev_prepare_open args; EvExists d])
            else
              match os_listdir W (ws_src ws)
                      (h ++ [ev_commit_start; ev_prepare_open args; EvExists d]) with
              | Raise e => (Raise e, commit_prefix args d ws)
              | Ok names =>
                  match open_workflows W ws names (h ++ commit_prefix args d ws) with
                  | (Raise e, es1) => (Raise e, commit_prefix args d ws ++ es1)
                  | (Ok wfs, es1) =>
                      match commit_loop W args d wfs
                              (h ++ commit_prefix args d ws ++ es1) with
                      | (Raise e, es2) =>
                          (Raise e, commit_prefix args d ws ++ es1 ++ es2)
                      | (Ok _, es2) =>
                          match when (a_cleanup args) (remove_workspace W ws)
                                  (h ++ commit_prefix args d ws ++ es1 ++ es2) with
                          | (r, es3) =>
                              (r, commit_prefix args d ws ++ es1 ++ es2 ++ es3)
                          end
                      end
                  end
              end
        end
    end.
Proof.
  unfold commit_try, commit_prefix, ev_commit_start, ev_prepare_open.
  unfold bind at 1, logger_info at 1.
  unfold bind at 1, call at 1.
  destruct (projects_prepare W _ _ _ _ _) as [ws|e]; [ | reflexivity ].
  unfold bind at 1, lift at 1.
  destruct (commit_destination args) as [d|e]; [ | reflexivity ].
  unfold bind at 1, ask at 1. rewrite <- ?app_assoc. simpl app.
  unfold bind at 1, when at 1, raise at 1.
  destruct (os_path_exists W d _); [ reflexivity | ].
  unfold ret at 1. rewrite <- !app_assoc. simpl app.
  unfold bind at 1, call at 1.
  destruct (os_listdir W _ _) as [names|e]; [ | reflexivity ].
  rewrite <- !app_assoc. simpl app.
  unfold bind at 1.
  destruct (open_workflows W ws names _) as [[wfs|e] es1]; [ | reflexivity ].
  unfold bind at 1. rewrite <- ?app_assoc. simpl app.
  destruct (commit_loop W args d wfs _) as [[u|e] es2]; [ | reflexivity ].
  rewrite <- !app_assoc. simpl app.
  destruct (when _ _ _) as [r es3]. reflexivity.
Qed.

Lemma committed_map_workflow {A} (f : A -> Workflow) (l : list A) :
  committed (map (fun n => EvWorkflow (f n)) l) = [].
Proof. induction l; simpl; auto. Qed.

Lemma committed_map_commit (d : string) (u : option string) (m : Z)
    (l : list Workflow) :
  committed (map (fun wf => EvCommit wf d u m) l) = l.
Proof. induction l as [|wf l IH]; simpl; [ | rewrite IH ]; reflexivity. Qed.

Lemma remove_workspace_events (b : bool) (ws : Workspace) (h : trace) :
  snd (when b (remove_workspace W ws) h) = []
  \/ snd (when b (remove_workspace W ws) h) =
       [EvLog INFO "Removing workspace"; EvRmtree (ws_base ws)].
Proof.
  destruct b; [ right | left; reflexivity ].
  unfold when, remove_workspace, bind, logger_info, call.
  destruct (shutil_rmtree W _ _); reflexivity.
Qed.

(** The calls of the commit phase: the start record, then calls of the
    kinds below only. *)
Lemma commit_command_tail (P : event -> Prop) (h : trace) :
  P (ev_prepare_open args) ->
  (forall d, P (EvExists d)) ->
  (forall p, P (EvListdir p)) ->
  (forall wf, P (EvWorkflow wf)) ->
  (forall wf d, commit_destination args = Ok d ->
                P (EvCommit wf d (a_user args) 63)) ->
  P (EvLog INFO "Removing workspace") ->
  (forall p, P (EvRmtree p)) ->
  P ev_commit_failed ->
  exists tail,
    snd (commit_command W args h) = ev_commit_start :: tail /\ Forall P tail.
Proof.
  intros Pprep Pex Pls Pwf Pcommit Plog Prm Pfail.
  rewrite commit_command_unfold, commit_try_unfold.
  destruct (projects_prepare W _ _ _ _ _) as [ws|e];
    [ | eexists; split; [ reflexivity | repeat constructor; auto ] ].
  destruct (commit_destination args) as [d|e] eqn:Hd;
    [ | eexists; split; [ reflexivity | repeat constructor; auto ] ].
  destruct (os_path_exists W d _);
    [ eexists; split; [ reflexivity | repeat constructor; auto ] | ].
  destruct (os_listdir W _ _) as [names|e];
    [ | eexists; split; [ reflexivity | repeat constructor; auto ] ].
  assert (Hpre : Forall P [ev_prepare_open args; EvExists d; EvListdir (ws_src ws)])
    by (repeat constructor; auto).
  assert (Hfail : Forall P [ev_commit_failed]) by (repeat constructor; auto).
  assert (Hopen : forall l,
             Forall P (map (fun n => EvWorkflow (workflow_named ws n)) l)).
  { intros l. apply Forall_forall. intros ev Hin.
    apply in_map_iff in Hin. destruct Hin as (n & <- & _). auto. }
  assert (Hcommit : forall l,
             Forall P (map (fun wf => EvCommit wf d (a_user args) 63) l)).
  { intros l. apply Forall_forall. intros ev Hin.
    apply in_map_iff in Hin. destruct Hin as (wf & <- & _). auto. }
  unfold commit_prefix.
  match goal with
  | |- context [open_workflows W ws names ?h'] =>
      destruct (open_workflows_unfold ws names h') as [(k & e & _ & ->) | ->]
  end.
  { eexists; split; [ reflexivity | ].
    change (Forall P (([ev_prepare_open args; EvExists d; EvListdir (ws_src ws)]
                         ++ map (fun n => EvWorkflow (workflow_named ws n))
                              (firstn (S k) names)) ++ [ev_commit_failed])).
    rewrite !Forall_app. auto. }
  match goal with
  | |- context [commit_loop W args d ?wfs ?h'] =>
      destruct (commit_loop_unfold d wfs h') as [(k & e & _ & ->) | ->]
  end.
  { eexists; split; [ reflexivity | ].
    change (Forall P (([ev_prepare_open args; EvExists d; EvListdir (ws_src ws)]
                         ++ map (fun n => EvWorkflow (workflow_named ws n)) names
                         ++ map (fun wf => EvCommit wf d (a_user args) 63)
                              (firstn (S k) (map (workflow_named ws) names)))
                        ++ [ev_commit_failed])).
    rewrite !Forall_app. auto. }
  match goal with
  | |- context [when ?b ?m ?h'] =>
      assert (Hrm := remove_workspace_events b ws h');
      destruct (when b m h') as [[u|e] es3]
  end; cbn [snd] in Hrm.
  - eexists; split; [ reflexivity | ].
    change (Forall P ([ev_prepare_open args; EvExists d; EvListdir (ws_src ws)]
                        ++ map (fun n => EvWorkflow (workflow_named ws n)) names
                        ++ map (fun wf => EvCommit wf d (a_user args) 63)
                             (map (workflow_named ws) names) ++ es3)).
    rewrite !Forall_app. repeat split; auto.
    destruct Hrm as [-> | ->]; repeat constructor; auto.
  - eexists; split; [ reflexivity | ].
    change (Forall P (([ev_prepare_open args; EvExists d; EvListdir (ws_src ws)]
                         ++ map (fun n => EvWorkflow (workflow_named ws n)) names
                         ++ map (fun wf => EvCommit wf d (a_user args) 63)
                              (map (workflow_named ws) names) ++ es3)
                        ++ [ev_commit_failed])).
    rewrite !Forall_app. repeat split; auto.
    destruct Hrm as [-> | ->]; repeat constructor; auto.
Qed.

(** Every commit of the phase goes to the destination, for the user of
    the invocation, with the umask [0o077]. *)
Lemma commit_command_events (h : trace) :
  Forall (commit_event_ok args) (snd (commit_command W args h)).
Proof.
  destruct (commit_command_tail (commit_event_ok args) h)
    as (tail & -> & Htail); simpl; auto.
  constructor; [ exact I | exact Htail ].
Qed.

(** The commit phase starts once in a call of [commit_command]. *)
Lemma commit_command_starts_once (h : trace) :
  count_commit_starts (snd (commit_command W args h)) = 1.
Proof.
  destruct (commit_command_tail (fun ev => is_commit_start ev = false) h)
    as (tail & -> & Htail); try reflexivity.
  unfold count_commit_starts. simpl. f_equal.
  induction Htail as [|ev tail Hev _ IH]; simpl; [ reflexivity | ].
  rewrite Hev. exact IH.
Qed.

Lemma open_workflows_total (ws : Workspace) :
  (forall wf h, Workflow_init W wf h = Ok tt) ->
  forall names h,
    open_workflows W ws names h =
      (Ok (map (workflow_named ws) names),
       map (fun n => EvWorkflow (workflow_named ws n)) names).
Proof.
  intros Hinit. induction names as [|name rest IH]; intros h; [ reflexivity | ].
  rewrite open_workflows_cons, Hinit, IH. reflexivity.
Qed.

Lemma commit_loop_total (d : string) :
  (forall wf h, Workflow_commit W wf d (a_user args) 63 h = Ok tt) ->
  forall wfs h,
    commit_loop W args d wfs h =
      (Ok tt, map (fun wf => EvCommit wf d (a_user args) 63) wfs).
Proof.
  intros Hcommit. induction wfs as [|wf rest IH]; intros h; [ reflexivity | ].
  rewrite commit_loop_cons, Hcommit, IH. reflexivity.
Qed.

Lemma remove_workspace_committed (b : bool) (ws : Workspace) (h : trace) :
  committed (snd (when b (remove_workspace W ws) h)) = [].
Proof.
  destruct (remove_workspace_events b ws h) as [-> | ->]; reflexivity.
Qed.

(** The workflows committed by the phase, once [src] is listed. *)
Lemma commit_command_committed (h : trace) (ws : Workspace) (d : string)
    (names : list string) :
  projects_prepare W (a_target args) false None None (h ++ [ev_commit_start])
    = Ok ws ->
  commit_destination args = Ok d ->
  os_path_exists W d (h ++ [ev_commit_start; ev_prepare_open args]) = false ->
  os_listdir W (ws_src ws)
    (h ++ [ev_commit_start; ev_prepare_open args; EvExists d]) = Ok names ->
  ((exists k, committed (snd (commit_command W args h))
              = firstn k (map (workflow_named ws) names))
   /\ (fst (commit_command W args h) = Ok tt ->
       committed (snd (commit_command W args h)) = map (workflow_named ws) names))
  /\ ((forall wf h', Workflow_init W wf h' = Ok tt) ->
      (forall wf h', Workflow_commit W wf d (a_user args) 63 h' = Ok tt) ->
      committed (snd (commit_command W args h)) = map (workflow_named ws) names).
Proof.
  intros Hprep Hd Hex Hls.
  rewrite commit_command_unfold, commit_try_unfold, Hprep, Hd, Hex, Hls.
  assert (Hpre : committed (commit_prefix args d ws) = []) by reflexivity.
  split.
  - destruct (open_workflows_unfold ws names (h ++ commit_prefix args d ws))
      as [(k & e & _ & ->) | ->].
    { cbn [fst snd]. split; [ exists 0 | discriminate ].
      rewrite !committed_app, Hpre, committed_map_workflow. reflexivity. }
    match goal with
    | |- context [commit_loop W args d ?wfs ?h'] =>
        destruct (commit_loop_unfold d wfs h') as [(k & e & _ & ->) | ->]
    end.
    { cbn [fst snd]. split; [ exists (S k) | discriminate ].
      rewrite !committed_app, Hpre, committed_map_workflow, committed_map_commit.
      cbn [app committed ev_commit_failed]. rewrite app_nil_r. reflexivity. }
    match goal with
    | |- context [when ?b ?m ?h'] =>
        assert (Hrm := remove_workspace_committed b ws h');
        destruct (when b m h') as [[u|e] es3]
    end; cbn [fst snd] in *;
      rewrite !committed_app, Hpre, committed_map_workflow, committed_map_commit,
        Hrm, ?app_nil_r; cbn [app committed];
      (split; [ exists (length (map (workflow_named ws) names));
                symmetry; apply firstn_all
              | reflexivity ]).
  - intros Hinit Hcommit.
    rewrite (open_workflows_total ws Hinit), (commit_loop_total d Hcommit).
    match goal with
    | |- context [when ?b ?m ?h'] =>
        assert (Hrm := remove_workspace_committed b ws h');
        destruct (when b m h') as [[u|e] es3]
    end; cbn [fst snd] in *;
      rewrite !committed_app, Hpre, committed_map_workflow, committed_map_commit,
        Hrm, ?app_nil_r; reflexivity.
Qed.

End CommitPhase.

(** C2: when the destination of the commit exists at the time the commit
    phase looks for it, the commit command raises, commits no workflow and
    does not delete the workspace, whether or not cleanup was asked for. *)
Theorem commit_command_existing_destination (W : World) (args : Args)
    (h : trace) (d : string) :
  commit_destination args = Ok d ->
  os_path_exists W d (h ++ [ev_commit_start; ev_prepare_open args]) = true ->
  (exists e, fst (commit_command W args h) = Raise e)
  /\ committed (snd (commit_command W args h)) = []
  /\ forallb (fun ev => negb (is_commit_or_rmtree ev))
       (snd (commit_command W args h)) = true
  /\ (forall ws,
        projects_prepare W (a_target args) false None None
          (h ++ [ev_commit_start]) = Ok ws ->
        commit_command W args h =
          (Raise (dropbox_exists_error d ws),
           [ev_commit_start; ev_prepare_open args; EvExists d; ev_commit_failed])).
Proof.
  intros Hd Hex.
  rewrite commit_command_unfold, commit_try_unfold, Hd, Hex.
  destruct (projects_prepare W _ _ _ _ _) as [ws|e]; simpl.
  - repeat split; eauto. intros ws' Heq. inversion Heq; reflexivity.
  - repeat split; eauto. intros ws' Heq. discriminate.
Qed.

Lemma commit_command_existing_destination_witness :
  (exists e, fst (commit_command (world_dropbox_exists args_commit_umask)
                    args_commit_umask []) = Raise e)
  /\ committed (snd (commit_command (world_dropbox_exists args_commit_umask)
                       args_commit_umask [])) = []
  /\ forallb (fun ev => negb (is_commit_or_rmtree ev))
       (snd (commit_command (world_dropbox_exists args_commit_umask)
               args_commit_umask [])) = true
  /\ (forall ws,
        projects_prepare (world_dropbox_exists args_commit_umask)
          (a_target args_commit_umask) false None None
          ([] ++ [ev_commit_start]) = Ok ws ->
        commit_command (world_dropbox_exists args_commit_umask)
          args_commit_umask [] =
          (Raise (dropbox_exists_error "/drop/B1" ws),
           [ev_commit_start; ev_prepare_open args_commit_umask;
            EvExists "/drop/B1"; ev_commit_failed])).
Proof.
  apply (commit_command_existing_destination
           (world_dropbox_exists args_commit_umask) args_commit_umask []
           "/drop/B1"); reflexivity.
Defined.


(** ** The run procedure *)

Section RunProcedure.

Variable W : World.
Variable args : Args.

(** One turn of the run loop, outcome by outcome. *)
Lemma run_loop_cons (wf : Workflow) (rest : list Workflow) (h : trace) :
  run_loop W args (wf :: rest) h =
    match Workflow_create W wf None None h with
    | Raise e => (Raise e, [EvCreate wf None None])
    | Ok _ =>
    match Workflow_clone W wf (h ++ [EvCreate wf None None]) with
    | Raise e => (Raise e, [EvCreate wf None None; EvClone wf])
    | Ok _ =>
    match Workflow_write_config W wf (a_user args) (a_group args)
            (h ++ [EvCreate wf None None; EvClone wf]) with
    | Raise e =>
        (Raise e, [EvCreate wf None None; EvClone wf;
                   EvWriteConfig wf (a_user args) (a_group args)])
    | Ok _ =>
    match Workflow_run W wf (a_user args)
            (h ++ [EvCreate wf None None; EvClone wf;
                   EvWriteConfig wf (a_user args) (a_group args)]) with
    | Raise e =>
        (Raise e, [EvCreate wf None None; EvClone wf;
                   EvWriteConfig wf (a_user args) (a_group args);
                   EvRun wf (a_user args)])
    | Ok p =>
    match Popen_wait W p
            (h ++ [EvCreate wf None None; EvClone wf;
                   EvWriteConfig wf (a_user args) (a_group args);
                   EvRun wf (a_user args)]) with
    | Raise e => (Raise e, steps args wf p)
    | Ok rc =>
        if negb (rc =? 0)%Z
        then (Raise (nonzero_error W wf), steps args wf p)
        else
          match run_loop W args rest
                  (h ++ steps args wf p ++ [ev_success W wf]) with
          | (r, es) => (r, steps args wf p ++ ev_success W wf :: es)
          end
    end end end end end.
Proof.
  simpl run_loop. unfold steps, ev_success, nonzero_error.
  unfold bind at 1, call at 1.
  destruct (Workflow_create W wf None None h); [ | reflexivity ].
  unfold bind at 1, call at 1.
  destruct (Workflow_clone W wf _); [ | reflexivity ].
  unfold bind at 1, call at 1. rewrite <- ?app_assoc. simpl app.
  destruct (Workflow_write_config W wf _ _ _); [ | reflexivity ].
  unfold bind at 1, call at 1. rewrite <- ?app_assoc. simpl app.
  destruct (Workflow_run W wf _ _) as [p|e]; [ | reflexivity ].
  unfold bind at 1, call at 1. rewrite <- ?app_assoc. simpl app.
  destruct (Popen_wait W p _) as [rc|e]; [ | reflexivity ].
  unfold bind at 1. rewrite <- ?app_assoc. simpl app.
  destruct (negb (rc =? 0)%Z); [ reflexivity | ].
  unfold logger_info at 1. rewrite <- ?app_assoc. simpl app.
  destruct (run_loop W args rest _) as [r es]. reflexivity.
Qed.

(** The loop over [pre ++ rest], once the turns for [pre] succeeded. *)
Lemma run_loop_app :
  forall pre rest h es,
    run_loop W args pre h = (Ok tt, es) ->
    run_loop W args (pre ++ rest) h =
      (fst (run_loop W args rest (h ++ es)),
       es ++ snd (run_loop W args rest (h ++ es))).
Proof.
  induction pre as [|wf pre IH]; intros rest h es H.
  - inversion H; subst. rewrite app_nil_r. simpl. apply pair_eta.
  - rewrite <- app_comm_cons, run_loop_cons. rewrite run_loop_cons in H.
    destruct (Workflow_create W wf None None h); [ | discriminate ].
    destruct (Workflow_clone W wf _); [ | discriminate ].
    destruct (Workflow_write_config W wf _ _ _); [ | discriminate ].
    destruct (Workflow_run W wf _ _) as [p|e]; [ | discriminate ].
    destruct (Popen_wait W p _) as [rc|e]; [ | discriminate ].
    destruct (negb (rc =? 0)%Z); [ discriminate | ].
    destruct (run_loop W args pre _) as [r es0] eqn:Hpre.
    inversion H; subst. clear H.
    rewrite (IH rest _ _ Hpre).
    replace ((h ++ steps args wf p ++ [ev_success W wf]) ++ es0)
      with (h ++ steps args wf p ++ ev_success W wf :: es0)
      by (rewrite <- !app_assoc; reflexivity).
    reflexivity.
Qed.

Lemma run_body_unfold (ws : Workspace) (wfs : list Workflow) (h : trace) :
  run_body W args ws wfs h =
    match when (nonempty (a_data args)) (copy_data_call W args ws) h with
    | (Raise e, es0) => (Raise e, es0)
    | (Ok _, es0) =>
        (fst (run_loop W args wfs (h ++ es0)),
         es0 ++ snd (run_loop W args wfs (h ++ es0)))
    end.
Proof.
  unfold run_body, bind.
  destruct (when _ _ h) as [[u|e] es0]; [ | reflexivity ].
  destruct (run_loop W args wfs _); reflexivity.
Qed.

(** The run procedure: its [try] block, the record of the outcome of the
    block, and the commit phase; only a raise of the commit phase, or one
    of the block that is no [Exception], leaves the procedure. *)
Lemma run_unfold (ws : Workspace) (wfs : list Workflow) (h : trace) :
  run W args ws wfs h =
    (match fst (commit_command W args (h ++ before_commit W args ws wfs h)) with
     | Raise e' => Raise e'
     | Ok _ =>
         match fst (run_body W args ws wfs h) with
         | Ok _ => Ok tt
         | Raise e => if is_Exception e then Ok tt else Raise e
         end
     end,
     before_commit W args ws wfs h
       ++ snd (commit_command W args (h ++ before_commit W args ws wfs h))).
Proof.
  unfold run, before_commit, try_finally, try_except_else, run_epilogue,
    logger_info, logger_exception.
  destruct (run_body W args ws wfs h) as [[u|e] es]; simpl.
  - destruct (commit_command W args _) as [[u'|e'] ec]; reflexivity.
  - destruct (is_Exception e); simpl; rewrite ?app_nil_r;
      destruct (commit_command W args _) as [[u'|e'] ec]; reflexivity.
Qed.

(** The calls of the run loop are of the kinds below only. *)
Lemma run_loop_events (P : event -> Prop) :
  (forall wf, P (EvCreate wf None None)) ->
  (forall wf, P (EvClone wf)) ->
  (forall wf, P (EvWriteConfig wf (a_user args) (a_group args))) ->
  (forall wf, P (EvRun wf (a_user args))) ->
  (forall p, P (EvWait p)) ->
  (forall wf, P (ev_success W wf)) ->
  forall wfs h, Forall P (snd (run_loop W args wfs h)).
Proof.
  intros Pcreate Pclone Pconf Prun Pwait Plog.
  induction wfs as [|wf rest IH]; intros h.
  - constructor.
  - rewrite run_loop_cons. unfold steps.
    destruct (Workflow_create W wf None None h); [ | repeat constructor; auto ].
    destruct (Workflow_clone W wf _); [ | repeat constructor; auto ].
    destruct (Workflow_write_config W wf _ _ _); [ | repeat constructor; auto ].
    destruct (Workflow_run W wf _ _) as [p|e]; [ | repeat constructor; auto ].
    destruct (Popen_wait W p _) as [rc|e]; [ | repeat constructor; auto ].
    destruct (negb (rc =? 0)%Z); [ repeat constructor; auto | ].
    match goal with
    | |- context [run_loop W args rest ?h'] =>
        specialize (IH h'); destruct (run_loop W args rest h') as [r es]
    end.
    cbn [snd] in *. repeat (constructor; auto).
Qed.

Lemma run_body_events (P : event -> Prop) (ws : Workspace) :
  P (EvCopyData ws (a_data args) (a_user args) (a_group args)) ->
  (forall wf, P (EvCreate wf None None)) ->
  (forall wf, P (EvClone wf)) ->
  (forall wf, P (EvWriteConfig wf (a_user args) (a_group args))) ->
  (forall wf, P (EvRun wf (a_user args))) ->
  (forall p, P (EvWait p)) ->
  (forall wf, P (ev_success W wf)) ->
  forall wfs h, Forall P (snd (run_body W args ws wfs h)).
Proof.
  intros Pcopy Pcreate Pclone Pconf Prun Pwait Plog wfs h.
  rewrite run_body_unfold.
  assert (H0 : Forall P (snd (when (nonempty (a_data args))
                                (copy_data_call W args ws) h))).
  { unfold when, copy_data_call, call, ret.
    destruct (nonempty (a_data args)); repeat constructor; auto. }
  destruct (when _ _ h) as [[u|e] es0]; cbn [snd] in *; [ | exact H0 ].
  rewrite Forall_app. split; [ exact H0 | ].
  apply run_loop_events; auto.
Qed.

Lemma ops_app (t1 t2 : trace) : ops (t1 ++ t2) = ops t1 ++ ops t2.
Proof. unfold ops. apply flat_map_app. Qed.

(** The run loop follows the turns of the workflows in list order, and
    goes through all of them when it does not raise. *)
Lemma run_loop_ops :
  forall wfs h,
    exists rest,
      ops (snd (run_loop W args wfs h)) ++ rest = flat_map turn_ops wfs
      /\ (fst (run_loop W args wfs h) = Ok tt -> rest = []).
Proof.
  induction wfs as [|wf wfs IH]; intros h.
  - exists []. split; reflexivity.
  - rewrite run_loop_cons. unfold steps. cbn [flat_map turn_ops].
    destruct (Workflow_create W wf None None h);
      [ | eexists; split; [ reflexivity | discriminate ] ].
    destruct (Workflow_clone W wf _);
      [ | eexists; split; [ reflexivity | discriminate ] ].
    destruct (Workflow_write_config W wf _ _ _);
      [ | eexists; split; [ reflexivity | discriminate ] ].
    destruct (Workflow_run W wf _ _) as [p|e];
      [ | eexists; split; [ reflexivity | discriminate ] ].
    destruct (Popen_wait W p _) as [rc|e];
      [ | eexists; split; [ reflexivity | discriminate ] ].
    destruct (negb (rc =? 0)%Z);
      [ eexists; split; [ reflexivity | discriminate ] | ].
    match goal with
    | |- context [run_loop W args wfs ?h'] =>
        destruct (IH h') as (rest & Hrest & Hok);
        destruct (run_loop W args wfs h') as [r es]
    end.
    cbn [fst snd] in *. exists rest. split; [ | exact Hok ].
    cbn. f_equal. f_equal. f_equal. f_equal. f_equal. exact Hrest.
Qed.

Lemma run_body_app (ws : Workspace) (pre rest : list Workflow)
    (h es : trace) :
  run_body W args ws pre h = (Ok tt, es) ->
  run_body W args ws (pre ++ rest) h =
    (fst (run_loop W args rest (h ++ es)),
     es ++ snd (run_loop W args rest (h ++ es))).
Proof.
  rewrite !run_body_unfold.
  destruct (when _ _ h) as [[u|e] es0]; [ | discriminate ].
  intros H. inversion H as [[Hfst Hes]].
  rewrite (run_loop_app pre rest (h ++ es0) (snd (run_loop W args pre (h ++ es0)))).
  - cbn [fst snd]. rewrite <- !app_assoc. reflexivity.
  - rewrite <- Hfst. apply pair_eta.
Qed.

(** A turn whose five calls succeed: the loop stops on a non-zero exit
    status and goes on otherwise. *)
Lemma run_loop_turn (wf : Workflow) (rest : list Workflow) (h : trace)
    (p : Popen) (rc : Z) :
  turn_answers W args wf h p rc ->
  run_loop W args (wf :: rest) h =
    if negb (rc =? 0)%Z
    then (Raise (nonzero_error W wf), steps args wf p)
    else
      (fst (run_loop W args rest (h ++ steps args wf p ++ [ev_success W wf])),
       steps args wf p ++ ev_success W wf
         :: snd (run_loop W args rest (h ++ steps args wf p ++ [ev_success W wf]))).
Proof.
  intros (H1 & H2 & H3 & H4 & H5). rewrite run_loop_cons.
  cbn [firstn steps] in *. rewrite H1, H2, H3, H4, H5.
  destruct (negb (rc =? 0)%Z); [ reflexivity | ].
  destruct (run_loop W args rest _); reflexivity.
Qed.

End RunProcedure.

(** ** Properties of the run procedure and of the commit phase *)

Lemma count_commit_starts_app (t1 t2 : trace) :
  count_commit_starts (t1 ++ t2) = count_commit_starts t1 + count_commit_starts t2.
Proof. unfold count_commit_starts. rewrite filter_app, length_app. reflexivity. Qed.

Lemma count_commit_starts_none (t : trace) :
  Forall (fun ev => is_commit_start ev = false) t -> count_commit_starts t = 0.
Proof.
  unfold count_commit_starts. induction 1 as [|ev t Hev _ IH]; simpl;
    [ reflexivity | rewrite Hev; exact IH ].
Qed.

Lemma ops_none (t : trace) :
  Forall (fun ev => op_of ev = []) t -> ops t = [].
Proof.
  unfold ops. induction 1 as [|ev t Hev _ IH]; simpl;
    [ reflexivity | rewrite Hev; exact IH ].
Qed.

Lemma committed_none (t : trace) :
  Forall (fun ev => is_commit_or_rmtree ev = false) t -> committed t = [].
Proof.
  induction 1 as [|ev t Hev _ IH]; simpl; [ reflexivity | ].
  destruct ev; try exact IH; discriminate.
Qed.

(** What the run procedure does before its [finally] block is of the
    kinds of the run loop, or the record of its outcome. *)
Lemma before_commit_events (W : World) (args : Args) (P : event -> Prop)
    (ws : Workspace) (wfs : list Workflow) (h : trace) :
  P (EvCopyData ws (a_data args) (a_user args) (a_group args)) ->
  (forall wf, P (EvCreate wf None None)) ->
  (forall wf, P (EvClone wf)) ->
  (forall wf, P (EvWriteConfig wf (a_user args) (a_group args))) ->
  (forall wf, P (EvRun wf (a_user args))) ->
  (forall p, P (EvWait p)) ->
  (forall wf, P (ev_success W wf)) ->
  P (EvLog INFO "Workflows were executed successfully") ->
  (forall e, P (EvLogException "Got exception while executing workflows:" e)) ->
  Forall P (before_commit W args ws wfs h).
Proof.
  intros Pcopy Pcreate Pclone Pconf Prun Pwait Plog Pok Pexc.
  unfold before_commit. rewrite Forall_app. split.
  - apply run_body_events; assumption.
  - unfold run_epilogue. destruct (fst (run_body W args ws wfs h)) as [u|e];
      [ | destruct (is_Exception e) ]; repeat constructor; auto.
Qed.

Lemma before_commit_no_start (W : World) (args : Args) (ws : Workspace)
    (wfs : list Workflow) (h : trace) :
  count_commit_starts (before_commit W args ws wfs h) = 0.
Proof.
  apply count_commit_starts_none.
  apply before_commit_events; intros; reflexivity.
Qed.

(** C1: the run procedure executes the commit phase exactly once, after
    everything its run loop did and as the last thing it does, whatever the
    loop did: completed, stopped on a non-zero exit status, or raised.  A
    run command that is not daemonized and gets to its run procedure
    therefore starts the commit phase exactly once. *)
Theorem run_commits_exactly_once (W : World) (args : Args) (h : trace) :
  (forall ws wfs,
      snd (run W args ws wfs h) =
        before_commit W args ws wfs h
          ++ snd (commit_command W args (h ++ before_commit W args ws wfs h))
      /\ count_commit_starts (before_commit W args ws wfs h) = 0
      /\ ops (snd (commit_command W args (h ++ before_commit W args ws wfs h))) = []
      /\ count_commit_starts (snd (run W args ws wfs h)) = 1)
  /\ (a_daemon args = false ->
      forall ws wfs es,
        prepare_command W args false false h = (Ok (ws, wfs), es) ->
        os_umask W (a_umask args) (h ++ es) = Ok tt ->
        count_commit_starts (snd (run_command W args h)) = 1).
Proof.
  assert (Hrun : forall ws wfs h',
             count_commit_starts (snd (run W args ws wfs h')) = 1).
  { intros ws wfs h'. rewrite run_unfold. cbn [snd].
    rewrite count_commit_starts_app, before_commit_no_start,
      commit_command_starts_once. reflexivity. }
  split.
  - intros ws wfs. repeat split.
    + rewrite run_unfold. reflexivity.
    + apply before_commit_no_start.
    + destruct (commit_command_tail W args (fun ev => op_of ev = [])
                  (h ++ before_commit W args ws wfs h))
        as (tail & -> & Htail); try reflexivity.
      apply (ops_none (ev_commit_start :: tail)).
      constructor; [ reflexivity | exact Htail ].
    + apply Hrun.
  - intros Hd ws wfs es Hprep Hum.
    assert (Hes : count_commit_starts es = 0).
    { generalize (prepare_command_no_commit_start W args h).
      rewrite Hprep. auto. }
    unfold run_command. rewrite (bind_ok _ _ _ _ _ Hprep), Hd. cbn [snd].
    unfold bind at 1, call at 1. rewrite Hum.
    destruct (run W args ws wfs _) as [r er] eqn:Her. cbn [snd].
    rewrite !count_commit_starts_app, Hes.
    generalize (Hrun ws wfs ((h ++ es) ++ [EvUmask (a_umask args)])).
    rewrite Her. cbn [snd]. intros ->. reflexivity.
Qed.

Lemma run_commits_exactly_once_witness :
  count_commit_starts
    (snd (run_command (world_with args_run_two ["repoA"] 1) args_run_two [])) = 1.
Proof.
  apply (proj2 (run_commits_exactly_once
                  (world_with args_run_two ["repoA"] 1) args_run_two [])
           eq_refl workspace_w [workflow_runA; workflow_runB]
           [ev_prepare_create args_run_two; EvWorkflow workflow_runA;
            EvWorkflow workflow_runB]);
    reflexivity.
Defined.

(** C5: the run procedure copies the input data first (when there is
    any), then takes the workflows in list order, each through create,
    clone, configure, run and wait, in that order.  After turns that
    succeeded, a turn whose child exits with a non-zero status ends the
    loop: nothing is done for the later workflows, and the failure is
    logged by the run procedure; on a zero status the loop goes on with
    the next workflow. *)
Theorem run_procedure_order (W : World) (args : Args) (ws : Workspace) :
  (forall wfs h,
      (exists rest, ops (snd (run_body W args ws wfs h)) ++ rest = schedule args wfs)
      /\ (fst (run_body W args ws wfs h) = Ok tt ->
          ops (snd (run_body W args ws wfs h)) = schedule args wfs))
  /\ (forall pre wf post h es p rc,
         run_body W args ws pre h = (Ok tt, es) ->
         turn_answers W args wf (h ++ es) p rc ->
         (rc <> 0%Z ->
          run_body W args ws (pre ++ wf :: post) h =
            (Raise (nonzero_error W wf), es ++ steps args wf p)
          /\ ops (es ++ steps args wf p) = schedule args (pre ++ [wf])
          /\ exists tail,
               snd (run W args ws (pre ++ wf :: post) h) =
                 es ++ steps args wf p
                   ++ EvLogException "Got exception while executing workflows:"
                        (nonzero_error W wf) :: tail)
         /\ (rc = 0%Z ->
             run_body W args ws (pre ++ wf :: post) h =
               (fst (run_loop W args post
                       (h ++ es ++ steps args wf p ++ [ev_success W wf])),
                es ++ steps args wf p ++ ev_success W wf
                  :: snd (run_loop W args post
                            (h ++ es ++ steps args wf p ++ [ev_success W wf]))))).
Proof.
  assert (Hsched : forall wfs h,
             exists rest,
               ops (snd (run_body W args ws wfs h)) ++ rest = schedule args wfs
               /\ (fst (run_body W args ws wfs h) = Ok tt -> rest = [])).
  { intros wfs h. rewrite run_body_unfold. unfold schedule, when, copy_data_call, call, ret.
    destruct (nonempty (a_data args)).
    - destruct (projects_copy_data W ws _ _ _ h) as [u|e].
      + destruct (run_loop_ops W args wfs
                    (h ++ [EvCopyData ws (a_data args) (a_user args) (a_group args)]))
          as (rest & Hrest & Hok).
        exists rest. cbn [fst snd]. split; [ | exact Hok ].
        rewrite ops_app, <- app_assoc, Hrest. reflexivity.
      + eexists. split; [ reflexivity | discriminate ].
    - destruct (run_loop_ops W args wfs (h ++ [])) as (rest & Hrest & Hok).
      exists rest. cbn [fst snd]. split; [ exact Hrest | exact Hok ]. }
  split.
  - intros wfs h. destruct (Hsched wfs h) as (rest & Hrest & Hok).
    split; [ exists rest; exact Hrest | ].
    intros H. rewrite (Hok H), app_nil_r in Hrest. exact Hrest.
  - intros pre wf post h es p rc Hpre Hturn.
    assert (Hbody := run_body_app W args ws pre (wf :: post) h es Hpre).
    rewrite (run_loop_turn W args wf post (h ++ es) p rc Hturn) in Hbody.
    split.
    + intros Hrc.
      assert (Hnz : negb (rc =? 0)%Z = true)
        by (destruct (Z.eqb_spec rc 0); [ contradiction | reflexivity ]).
      rewrite Hnz in Hbody. cbn [fst snd] in Hbody.
      split; [ exact Hbody | ]. split.
      * destruct (Hsched pre h) as (rest & Hrest & Hok).
        rewrite Hpre in Hrest, Hok. cbn [fst snd] in Hrest, Hok.
        rewrite (Hok eq_refl), app_nil_r in Hrest.
        rewrite ops_app, Hrest. unfold schedule.
        rewrite flat_map_app, <- app_assoc. reflexivity.
      * rewrite run_unfold. unfold before_commit. rewrite Hbody.
        cbn [fst snd run_epilogue nonzero_error is_Exception].
        eexists. rewrite <- !app_assoc. reflexivity.
    + intros ->. cbn [Z.eqb negb] in Hbody.
      rewrite Hbody. rewrite <- !app_assoc. reflexivity.
Qed.

Lemma run_procedure_order_witness :
  run_body (world_with args_run_two ["repoA"] 1) args_run_two workspace_w
    ([] ++ workflow_runA :: [workflow_runB]) [] =
    (Raise (nonzero_error (world_with args_run_two ["repoA"] 1) workflow_runA),
     [] ++ steps args_run_two workflow_runA (mkPopen 3))
  /\ ops ([] ++ steps args_run_two workflow_runA (mkPopen 3))
     = schedule args_run_two ([] ++ [workflow_runA])
  /\ exists tail,
       snd (run (world_with args_run_two ["repoA"] 1) args_run_two workspace_w
              ([] ++ workflow_runA :: [workflow_runB]) []) =
         [] ++ steps args_run_two workflow_runA (mkPopen 3)
           ++ EvLogException "Got exception while executing workflows:"
                (nonzero_error (world_with args_run_two ["repoA"] 1)
                   workflow_runA) :: tail.
Proof.
  apply (proj1 (proj2 (run_procedure_order
                         (world_with args_run_two ["repoA"] 1) args_run_two
                         workspace_w)
                  [] workflow_runA [workflow_runB] [] [] (mkPopen 3) 1%Z
                  eq_refl
                  (conj eq_refl (conj eq_refl (conj eq_refl
                     (conj eq_refl eq_refl)))))).
  discriminate.
Defined.

(** C8, as amended: every commit of the commit phase, in the commit
    command and at the end of the run procedure alike, is made with the
    umask [0o077] (and for the user and the destination of the
    invocation), whatever the value of [--umask]. *)
Theorem commit_umask_is_fixed (W : World) (args : Args) (h : trace)
    (wf : Workflow) (d : string) (u : option string) (m : Z) :
  (In (EvCommit wf d u m) (snd (commit_command W args h)) ->
   m = 63%Z /\ u = a_user args /\ commit_destination args = Ok d)
  /\ (forall ws wfs,
         In (EvCommit wf d u m) (snd (run W args ws wfs h)) ->
         m = 63%Z /\ u = a_user args /\ commit_destination args = Ok d).
Proof.
  assert (Hok : forall t, Forall (commit_event_ok args) t ->
                          In (EvCommit wf d u m) t ->
                          m = 63%Z /\ u = a_user args
                          /\ commit_destination args = Ok d).
  { intros t Ht Hin. rewrite Forall_forall in Ht.
    destruct (Ht _ Hin) as (Hd & Hu & Hm). auto. }
  split.
  - apply Hok, commit_command_events.
  - intros ws wfs. apply Hok. rewrite run_unfold. cbn [snd].
    rewrite Forall_app. split.
    + apply before_commit_events; intros; exact I.
    + apply commit_command_events.
Qed.

Lemma commit_umask_is_fixed_witness :
  63%Z = 63%Z /\ Some "alice" = a_user args_commit_umask
  /\ commit_destination args_commit_umask = Ok "/drop/B1".
Proof.
  apply (proj1 (commit_umask_is_fixed
                  (world_with args_commit_umask ["repoA"] 0) args_commit_umask []
                  (workflow_named workspace_w "repoA") "/drop/B1"
                  (Some "alice") 63)).
  vm_compute. do 5 right. left. reflexivity.
Defined.

(** C8 as stated fails: with [--umask 022] the commit phase still commits
    with [0o077], which the argument does not stand for. *)
Lemma commit_ignores_umask_argument :
  a_umask args_commit_umask = UmaskStr "022"
  /\ In (EvCommit (workflow_named workspace_w "repoA") "/drop/B1"
           (Some "alice") 63)
       (snd (commit_command (world_with args_commit_umask ["repoA"] 0)
               args_commit_umask []))
  /\ ~ umask_denotes (a_umask args_commit_umask) 63.
Proof.
  split; [ reflexivity | split ].
  - vm_compute. do 5 right. left. reflexivity.
  - simpl. intros (_ & [H | H]); vm_compute in H; discriminate.
Qed.

(** C10: the commit phase commits the directory names that [src] lists
    when the phase runs, in the order of the listing: always a prefix of
    them, all of them when the phase does not raise, and exactly one
    commit for each when no constructor and no commit raises.  The run
    procedure commits by the same rule, whatever workflows it was given. *)
Theorem commit_phase_lists_src (W : World) (args : Args) (h : trace)
    (ws : Workspace) (d : string) (names : list string) :
  projects_prepare W (a_target args) false None None (h ++ [ev_commit_start])
    = Ok ws ->
  commit_destination args = Ok d ->
  os_path_exists W d (h ++ [ev_commit_start; ev_prepare_open args]) = false ->
  os_listdir W (ws_src ws)
    (h ++ [ev_commit_start; ev_prepare_open args; EvExists d]) = Ok names ->
  (exists k, committed (snd (commit_command W args h))
             = firstn k (map (workflow_named ws) names))
  /\ (fst (commit_command W args h) = Ok tt ->
      committed (snd (commit_command W args h)) = map (workflow_named ws) names)
  /\ ((forall wf h', Workflow_init W wf h' = Ok tt) ->
      (forall wf h', Workflow_commit W wf d (a_user args) 63 h' = Ok tt) ->
      committed (snd (commit_command W args h)) = map (workflow_named ws) names)
  /\ (forall ws0 wfs0 h0,
         committed (snd (run W args ws0 wfs0 h0)) =
           committed (snd (commit_command W args
                             (h0 ++ before_commit W args ws0 wfs0 h0)))).
Proof.
  intros Hprep Hd Hex Hls.
  destruct (commit_command_committed W args h ws d names Hprep Hd Hex Hls)
    as ((Hprefix & Hok) & Hall).
  repeat split; try assumption.
  intros ws0 wfs0 h0. rewrite run_unfold. cbn [snd].
  rewrite committed_app, (committed_none (before_commit W args ws0 wfs0 h0));
    [ reflexivity | ].
  apply before_commit_events; intros; reflexivity.
Qed.

Lemma commit_phase_lists_src_witness :
  committed (snd (commit_command
                    (world_with args_commit_umask ["old"; "repoA"] 0)
                    args_commit_umask []))
    = map (workflow_named workspace_w) ["old"; "repoA"].
Proof.
  apply (proj1 (proj2 (commit_phase_lists_src
                         (world_with args_commit_umask ["old"; "repoA"] 0)
                         args_commit_umask [] workspace_w "/drop/B1"
                         ["old"; "repoA"] eq_refl eq_refl eq_refl eq_refl))).
  reflexivity.
Defined.

(** ** The entry point *)

Lemma main_try_unfold (W : World) (h : trace) :
  main_try W h =
    match main_prologue W h with
    | (Raise e, es) => (Raise e, es)
    | (Ok args, es) =>
        match dispatch W args (h ++ es) with
        | (Raise e, es') => (Raise e, es ++ es')
        | (Ok _, es') =>
            (Ok 0%Z, es ++ es' ++ [EvLog INFO "qproject finished succesfully"])
        end
    end.
Proof.
  unfold main_try, bind, logger_info, ret.
  destruct (main_prologue W h) as [[args|e] es]; [ | reflexivity ].
  destruct (dispatch W args (h ++ es)) as [[u|e] es']; reflexivity.
Qed.

(** C3, as amended: [main] always ends by [sys.exit]; the exit code is 0
    when the [try] block of [main] completes and 1 otherwise, and the block
    completes exactly when argument parsing, logging setup, validation and
    the dispatched command return without raising.  The run procedure logs
    and swallows an [Exception] of its [try] block (the error for a
    non-zero exit status is one): it raises what its commit phase raises,
    or else what the block raised that is no [Exception]. *)
Theorem main_exit_code (W : World) (h : trace) :
  fst (main W h)
    = Raise (SystemExit (if is_ok (fst (main_try W h)) then 0 else 1))
  /\ is_ok (fst (main_try W h))
     = match main_prologue W h with
       | (Ok args, es) => is_ok (fst (dispatch W args (h ++ es)))
       | (Raise _, _) => false
       end
  /\ (forall args ws wfs h',
         fst (run W args ws wfs h') =
           match fst (commit_command W args
                        (h' ++ before_commit W args ws wfs h')) with
           | Raise e' => Raise e'
           | Ok _ =>
               match fst (run_body W args ws wfs h') with
               | Ok _ => Ok tt
               | Raise e => if is_Exception e then Ok tt else Raise e
               end
           end)
  /\ (forall wf, is_Exception (nonzero_error W wf) = true).
Proof.
  split; [ | split; [ | split ] ].
  - unfold main, try_finally, try_except_Exception. rewrite main_try_unfold.
    destruct (main_prologue W h) as [[args|e] es].
    + destruct (dispatch W args (h ++ es)) as [[u|e] es']; cbn;
        [ reflexivity | destruct (is_Exception e); reflexivity ].
    + cbn. destruct (is_Exception e); reflexivity.
  - rewrite main_try_unfold.
    destruct (main_prologue W h) as [[args|e] es]; [ | reflexivity ].
    destruct (dispatch W args (h ++ es)) as [[u|e] es']; reflexivity.
  - intros args ws wfs h'. rewrite run_unfold. reflexivity.
  - reflexivity.
Qed.

(** C3 as stated fails: in a run whose first workflow exits with status
    1, the failure is logged, the commit phase succeeds and [main] exits
    with code 0. *)
Lemma main_exits_zero_after_failed_workflow :
  fst (main (world_with args_run_two ["repoA"] 1) []) = Raise (SystemExit 0)
  /\ (forall p h, Popen_wait (world_with args_run_two ["repoA"] 1) p h = Ok 1%Z)
  /\ In (EvLogException "Got exception while executing workflows:"
           (nonzero_error (world_with args_run_two ["repoA"] 1) workflow_runA))
       (snd (main (world_with args_run_two ["repoA"] 1) [])).
Proof.
  split; [ reflexivity | split; [ reflexivity | ] ].
  vm_compute. do 12 right. left. reflexivity.
Qed.

(** A run given two workflows whose directories are not in [src], which
    holds the directory [old]: the commit phase commits [old] and none of
    the two. *)
Example run_commits_listed_names :
  committed (snd (run (world_with args_run_two ["old"] 0) args_run_two
                    workspace_w [workflow_runA; workflow_runB] []))
    = [workflow_named workspace_w "old"].
Proof. reflexivity. Qed.

(** * Further properties of the orchestrator *)

(** ** Validation and the start of [main] *)

(** X1: without [--daemon], [validate_args] makes no call at all, and its
    outcome depends on the arguments alone. *)
Theorem validate_args_without_daemon (W : World) (args : Args) (h : trace) :
  a_daemon args = false ->
  snd (validate_args W args h) = []
  /\ forall W' h', validate_args W' args h' = validate_args W args h.
Proof.
  intros Hd. unfold validate_args. rewrite Hd. cbn [andb when].
  unfold when, bind, ret, raise.
  destruct (truthy (a_dropbox args)), (truthy (a_barcode args)),
    (truthy (a_user args)), (run_or_commit (a_command args));
    split; reflexivity.
Qed.

Lemma validate_args_without_daemon_witness :
  snd (validate_args (world_with args_run_repoA [] 0) args_run_repoA []) = []
  /\ forall W' h',
       validate_args W' args_run_repoA h'
       = validate_args (world_with args_run_repoA [] 0) args_run_repoA [].
Proof.
  apply (validate_args_without_daemon
           (world_with args_run_repoA [] 0) args_run_repoA []).
  reflexivity.
Defined.

(** The calls of [validate_args] only read the file system. *)
Lemma validate_args_queries (W : World) (args : Args) (h : trace) :
  Forall (fun ev => is_query ev = true) (snd (validate_args W args h)).
Proof.
  unfold validate_args, path_exists, isdir_dirname.
  unfold when, bind, ret, raise, ask.
  destruct (truthy (a_dropbox args)), (truthy (a_barcode args)),
    (truthy (a_user args)), (a_daemon args); cbn;
    try (destruct (a_pidfile args) as [p|]; cbn;
         [ destruct (negb (p =? "")); cbn;
           [ destruct (os_path_exists W p _); cbn;
             [ | destruct (os_path_isdir W _ _); cbn ] | ] | ]);
    destruct (run_or_commit (a_command args)); cbn;
    repeat constructor.
Qed.

(** The start of [main], outcome by outcome. *)
Lemma main_prologue_unfold (W : World) (h : trace) :
  main_prologue W h =
    match sys_argv_parse W h with
    | Raise e => (Raise e, [EvParseArgs])
    | Ok args =>
        match logging_setup W
                (if a_daemon args then SysLogHandler else StreamHandler)
                (h ++ [EvParseArgs]) with
        | Raise e => (Raise e, [EvParseArgs; ev_init_logging args])
        | Ok _ =>
            match validate_args W args
                    (h ++ [EvParseArgs; ev_init_logging args]) with
            | (Raise e, es) =>
                (Raise e, EvParseArgs :: ev_init_logging args :: es)
            | (Ok _, es) =>
                (Ok args,
                 EvParseArgs :: ev_init_logging args :: es ++ [ev_starting args])
            end
        end
    end.
Proof.
  unfold main_prologue, parse_args, init_logging, ev_init_logging, job_format,
    ev_starting.
  unfold bind at 1, call at 1.
  destruct (sys_argv_parse W h) as [args|e]; [ | reflexivity ].
  assert (Hfmt : match a_jobid args with
                 | Some j => "qproject - job " ^^ j ^^ " - %(message)s"
                 | None => "qproject - job " ^^ a_target args ^^ " - %(message)s"
                 end
                 = "qproject - job "
                     ^^ match a_jobid args with
                        | Some j => j
                        | None => a_target args
                        end ^^ " - %(message)s")
    by (destruct (a_jobid args); reflexivity).
  rewrite Hfmt.
  unfold bind at 1, call at 1.
  destruct (logging_setup W _ _); [ | reflexivity ].
  unfold bind at 1. rewrite <- app_assoc. cbn [app].
  destruct (validate_args W args _) as [[u|e] es]; [ | reflexivity ].
  unfold bind, logger_info, ret. cbn. rewrite ?app_nil_r. reflexivity.
Qed.

(** What [main] does before the command is of the kinds of the prologue. *)
Lemma main_prologue_events (W : World) (h : trace) :
  Forall (fun ev => prologue_kind ev = true) (snd (main_prologue W h)).
Proof.
  rewrite main_prologue_unfold.
  destruct (sys_argv_parse W h) as [args|e]; [ | repeat constructor ].
  destruct (logging_setup W _ _); [ | repeat constructor ].
  assert (Hv : Forall (fun ev => prologue_kind ev = true)
                 (snd (validate_args W args
                         (h ++ [EvParseArgs; ev_init_logging args])))).
  { eapply Forall_impl; [ | apply validate_args_queries ].
    intros ev. destruct ev; simpl; congruence. }
  destruct (validate_args W args _) as [[u|e] es]; cbn [snd] in *.
  - constructor; [ reflexivity | ]. constructor; [ reflexivity | ].
    rewrite Forall_app. split; [ exact Hv | repeat constructor ].
  - constructor; [ reflexivity | ]. constructor; [ reflexivity | exact Hv ].
Qed.

(** X2: when argument parsing, logging setup or validation raises, [main]
    exits with code 1 and has prepared, run and committed nothing: all it
    did is parse, set up logging, query the file system and log. *)
Theorem main_stops_at_prologue_failure (W : World) (h : trace) (e : exn)
    (es : trace) :
  main_prologue W h = (Raise e, es) ->
  fst (main W h) = Raise (SystemExit 1)
  /\ forallb prologue_kind (snd (main W h)) = true.
Proof.
  intros Hp. assert (Hes := main_prologue_events W h). rewrite Hp in Hes.
  cbn [snd] in Hes.
  unfold main, try_finally, try_except_Exception. rewrite main_try_unfold, Hp.
  destruct (is_Exception e); cbn; split; try reflexivity;
    apply forallb_forall; intros ev Hin;
    rewrite ?app_nil_r in Hin;
    repeat (apply in_app_or in Hin; destruct Hin as [Hin | Hin]);
    try (rewrite Forall_forall in Hes; apply Hes; exact Hin);
    cbn in Hin; intuition (subst; reflexivity).
Qed.

Lemma main_stops_at_prologue_failure_witness :
  fst (main (world_with args_daemon_no_pidfile [] 0) []) = Raise (SystemExit 1)
  /\ forallb prologue_kind
       (snd (main (world_with args_daemon_no_pidfile [] 0) [])) = true.
Proof.
  apply (main_stops_at_prologue_failure
           (world_with args_daemon_no_pidfile [] 0) []
           (ValueError "pidfile must be specified if daemon is")
           [EvParseArgs;
            EvInitLogging SysLogHandler "qproject - job /w - %(message)s"]).
  reflexivity.
Defined.

(** X3: whatever [argparse] leaves with, also the [SystemExit(0)] of
    [--help], [main] exits with code 1; it logs the error only if it is an
    [Exception], and does nothing else. *)
Theorem main_exits_one_when_parsing_fails (W : World) (h : trace) (e : exn) :
  sys_argv_parse W h = Raise e ->
  main W h =
    (Raise (SystemExit 1),
     EvParseArgs
       :: (if is_Exception e
           then [EvLogException "Failed to run qproject:" e]
           else [])
       ++ [EvLog INFO "Exiting qproject"]).
Proof.
  intros Hp.
  unfold main, try_finally, try_except_Exception.
  rewrite main_try_unfold, main_prologue_unfold, Hp.
  destruct (is_Exception e); reflexivity.
Qed.

Lemma main_exits_one_when_parsing_fails_witness :
  main (world_failing args_run_repoA (Raise (SystemExit 0)) (Ok tt)) [] =
    (Raise (SystemExit 1),
     EvParseArgs
       :: (if is_Exception (SystemExit 0)
           then [EvLogException "Failed to run qproject:" (SystemExit 0)]
           else [])
       ++ [EvLog INFO "Exiting qproject"]).
Proof.
  apply (main_exits_one_when_parsing_fails
           (world_failing args_run_repoA (Raise (SystemExit 0)) (Ok tt)) []
           (SystemExit 0)).
  reflexivity.
Defined.

(** X4: the log handler that [main] sets up is the syslog handler with
    [--daemon] and the stream handler without, and its format always names
    a job: the jobid when one is given (even an empty one), the target
    otherwise; the format without a job is never used. *)
Theorem main_log_format (W : World) (h : trace) (kind : handler_kind)
    (fmt : string) :
  In (EvInitLogging kind fmt) (snd (main_prologue W h)) ->
  exists args,
    sys_argv_parse W h = Ok args
    /\ kind = (if a_daemon args then SysLogHandler else StreamHandler)
    /\ fmt = job_format args
    /\ fmt <> "qproject - %(message)s".
Proof.
  rewrite main_prologue_unfold.
  destruct (sys_argv_parse W h) as [args|e].
  2:{ cbn. intros [H | []]. discriminate. }
  intros Hin. exists args. split; [ reflexivity | ].
  assert (Hinit : EvInitLogging kind fmt = ev_init_logging args).
  { assert (Hq := validate_args_queries W args
                    (h ++ [EvParseArgs; ev_init_logging args])).
    rewrite Forall_forall in Hq.
    destruct (logging_setup W _ _).
    - destruct (validate_args W args _) as [[u|e] es]; cbn [snd] in *;
        destruct Hin as [Hin | [Hin | Hin]]; try discriminate; auto.
      + apply in_app_or in Hin. destruct Hin as [Hin | [Hin | []]];
          [ apply Hq in Hin | ]; discriminate.
      + apply Hq in Hin. discriminate.
    - cbn in Hin. destruct Hin as [Hin | [Hin | []]]; [ discriminate | auto ]. }
  unfold ev_init_logging in Hinit. inversion Hinit; subst.
  repeat split. unfold job_format. cbn. discriminate.
Qed.

Lemma main_log_format_witness :
  exists args,
    sys_argv_parse (world_with args_run_repoA [] 0) [] = Ok args
    /\ StreamHandler = (if a_daemon args then SysLogHandler else StreamHandler)
    /\ "qproject - job job7 - %(message)s" = job_format args
    /\ "qproject - job job7 - %(message)s" <> "qproject - %(message)s".
Proof.
  apply (main_log_format (world_with args_run_repoA [] 0) []).
  cbn. right. left. reflexivity.
Defined.

(** ** [prepare_command] *)

Lemma forallb_Forall {A} (f : A -> bool) (l : list A) :
  Forall (fun x => f x = true) l -> forallb f l = true.
Proof. intros H. apply forallb_forall. apply Forall_forall. exact H. Qed.

(** The calls of [prepare_command] are calls of a preparation. *)
Lemma prepare_command_kinds (W : World) (args : Args)
    (clone copy_data : bool) (h : trace) :
  Forall (fun ev => prepare_kind clone copy_data ev = true)
    (snd (prepare_command W args clone copy_data h)).
Proof.
  rewrite prepare_command_unfold.
  destruct (projects_prepare W _ _ _ _ h) as [ws|e]; [ | repeat constructor ].
  assert (Hloop : forall specs h',
             Forall (fun ev => prepare_kind clone copy_data ev = true)
               (snd (prepare_loop W args clone ws specs h'))).
  { apply prepare_loop_events; intros; cbn; auto. }
  match goal with
  | |- context [prepare_loop W args clone ws ?specs ?h'] =>
      specialize (Hloop specs h');
      destruct (prepare_loop W args clone ws specs h') as [[wfs|e] es]
  end; cbn [snd] in Hloop; [ | constructor; [ reflexivity | exact Hloop ] ].
  unfold when, copy_data_call, call, ret.
  destruct (nonempty (a_data args)); cbn [andb].
  - destruct copy_data.
    + destruct (projects_copy_data W ws _ _ _ _); cbn [snd];
        (constructor; [ reflexivity | ]); rewrite Forall_app; split; auto;
        repeat constructor.
    + cbn [snd]. constructor; [ reflexivity | ].
      rewrite app_nil_r. exact Hloop.
  - cbn [snd]. constructor; [ reflexivity | ].
    rewrite app_nil_r. exact Hloop.
Qed.

(** X5: [prepare_command] only prepares: it opens the workspace with
    [create_ok], reads parameter files and constructs workflows; it
    creates, clones and configures them only with [clone], copies data
    only with [copy_data], and never runs a workflow, commits, lists or
    deletes anything, nor sets the umask. *)
Theorem prepare_command_only_prepares (W : World) (args : Args)
    (clone copy_data : bool) (h : trace) :
  forallb (prepare_kind clone copy_data)
    (snd (prepare_command W args clone copy_data h)) = true
  /\ committed (snd (prepare_command W args clone copy_data h)) = []
  /\ count_commit_starts (snd (prepare_command W args clone copy_data h)) = 0.
Proof.
  assert (H := prepare_command_kinds W args clone copy_data h).
  split; [ apply forallb_Forall, H | ].
  induction H as [|ev t Hev _ IH]; [ repeat split | ].
  destruct IH as (IH1 & IH2). unfold count_commit_starts in *.
  destruct ev; cbn in Hev |- *; try discriminate; split; auto.
Qed.

Lemma loaded_app (t1 t2 : trace) : loaded (t1 ++ t2) = loaded t1 ++ loaded t2.
Proof.
  induction t1 as [|ev t1 IH]; simpl; [ reflexivity | ].
  destruct ev; simpl; rewrite ?IH; reflexivity.
Qed.

Lemma closed_app (t1 t2 : trace) : closed (t1 ++ t2) = closed t1 ++ closed t2.
Proof.
  induction t1 as [|ev t1 IH]; simpl; [ reflexivity | ].
  destruct ev; simpl; rewrite ?IH; reflexivity.
Qed.

Section PrepareLoopMore.

Variable W : World.
Variable args : Args.
Variable workspace : Workspace.

Lemma read_params_closes (params : option string) (h : trace) :
  closed (snd (read_params W params h)) = loaded (snd (read_params W params h)).
Proof.
  unfold read_params. destruct (truthy params), params as [p|];
    try reflexivity.
  unfold load_params, bind, call, try_finally, try_except_ValueError,
    logger_exception, raise.
  destruct (builtin_open W p h); [ | reflexivity ].
  destruct (json_load W p _) as [j|e]; [ reflexivity | ].
  destruct (is_ValueError e); reflexivity.
Qed.

(** The calls of the three steps after the construction of a workflow. *)
Lemma clone_steps_cases (clone : bool) (wf : Workflow) (h : trace) :
  let create := EvCreate wf (a_user args) (a_group args) in
  let config := EvWriteConfig wf (a_user args) (a_group args) in
  (clone = false /\ when clone (clone_steps W args wf) h = (Ok tt, []))
  \/ (clone = true /\ exists e,
        when clone (clone_steps W args wf) h = (Raise e, [create]))
  \/ (clone = true /\ exists e,
        when clone (clone_steps W args wf) h = (Raise e, [create; EvClone wf]))
  \/ (clone = true /\ exists r,
        when clone (clone_steps W args wf) h = (r, [create; EvClone wf; config])).
Proof.
  cbv zeta. unfold when, clone_steps, bind, call, ret.
  destruct clone; [ right | left; split; reflexivity ].
  destruct (Workflow_create W wf _ _ h); [ | left; split; eauto ].
  destruct (Workflow_clone W wf _); [ | right; left; split; eauto ].
  right; right. split; [ reflexivity | ].
  destruct (Workflow_write_config W wf _ _ _); eexists; reflexivity.
Qed.

Lemma prepare_loop_closes (clone : bool) :
  forall specs h,
    closed (snd (prepare_loop W args clone workspace specs h))
    = loaded (snd (prepare_loop W args clone workspace specs h)).
Proof.
  induction specs as [|[[remote commit] params] rest IH]; intros h;
    [ reflexivity | ].
  rewrite prepare_loop_cons.
  assert (Hrp := read_params_closes params h).
  destruct (read_params W params h) as [[j|e] es1]; cbn [snd] in *;
    [ | exact Hrp ].
  cbv zeta. set (wf := mkWorkflow workspace None remote commit j).
  destruct (Workflow_init W wf _);
    [ | cbn [snd]; rewrite closed_app, loaded_app, Hrp; reflexivity ].
  assert (Hcs : forall r es2,
             when clone (clone_steps W args wf) (h ++ es1 ++ [EvWorkflow wf])
               = (r, es2) -> closed es2 = [] /\ loaded es2 = []).
  { intros r es2 Heq.
    destruct (clone_steps_cases clone wf (h ++ es1 ++ [EvWorkflow wf]))
      as [(_ & H) | [(_ & e & H) | [(_ & e & H) | (_ & r' & H)]]];
      rewrite H in Heq; inversion Heq; split; reflexivity. }
  destruct (when clone _ _) as [[u|e] es2] eqn:Hw;
    destruct (Hcs _ _ eq_refl) as [Hc Hl].
  - specialize (IH (h ++ es1 ++ EvWorkflow wf :: es2)).
    destruct (prepare_loop W args clone workspace rest _) as [[wfs|e] es3];
      cbn [snd] in *; rewrite closed_app, loaded_app, Hrp; cbn;
      rewrite closed_app, loaded_app, Hc, Hl, IH; reflexivity.
  - cbn [snd]. rewrite closed_app, loaded_app, Hrp. cbn.
    rewrite Hc, Hl. reflexivity.
Qed.

(** With [clone], a workflow is cloned before the next one is
    constructed. *)
Lemma prepare_loop_clones_as_it_goes :
  forall specs h,
    constructed (snd (prepare_loop W args true workspace specs h))
      = cloned (snd (prepare_loop W args true workspace specs h))
    \/ (exists wf,
          constructed (snd (prepare_loop W args true workspace specs h))
            = cloned (snd (prepare_loop W args true workspace specs h)) ++ [wf]
          /\ is_ok (fst (prepare_loop W args true workspace specs h)) = false).
Proof.
  induction specs as [|[[remote commit] params] rest IH]; intros h;
    [ left; reflexivity | ].
  rewrite prepare_loop_cons.
  assert (Hq := read_params_quiet W params h).
  destruct (read_params W params h) as [[j|e] es1]; cbn [snd] in Hq;
    destruct Hq as [Hq1 Hq2];
    [ | left; cbn [snd]; rewrite Hq1, Hq2; reflexivity ].
  cbv zeta. set (wf := mkWorkflow workspace None remote commit j).
  destruct (Workflow_init W wf _).
  2:{ right. exists wf. cbn [fst snd].
      rewrite constructed_app, cloned_app, Hq1, Hq2. split; reflexivity. }
  destruct (clone_steps_cases true wf (h ++ es1 ++ [EvWorkflow wf]))
    as [(Hf & _) | [(_ & e & ->) | [(_ & e & ->) | (_ & r & ->)]]];
    [ discriminate | | | ].
  - right. exists wf. cbn [fst snd].
    rewrite constructed_app, cloned_app, Hq1, Hq2. split; reflexivity.
  - left. cbn [fst snd].
    rewrite constructed_app, cloned_app, Hq1, Hq2. reflexivity.
  - destruct r as [u|e].
    + match goal with
      | |- context [prepare_loop W args true workspace rest ?h'] =>
          specialize (IH h');
          destruct (prepare_loop W args true workspace rest h') as [[wfs|e] es3]
      end; cbn [fst snd] in *;
        rewrite constructed_app, cloned_app, Hq1, Hq2; cbn;
        (destruct IH as [IH | (wf' & IH & Hok)];
         [ left; rewrite IH; reflexivity
         | right; exists wf'; rewrite IH; split; [ reflexivity | auto ] ]).
    + left. cbn [fst snd].
      rewrite constructed_app, cloned_app, Hq1, Hq2. reflexivity.
Qed.

End PrepareLoopMore.

(** X6: every parameter file that [prepare_command] hands to [json.load]
    is closed again, in the order of loading, whether the command
    completes or raises (also when [json.load] itself raises). *)
Theorem prepare_command_closes_parameter_files (W : World) (args : Args)
    (clone copy_data : bool) (h : trace) :
  closed (snd (prepare_command W args clone copy_data h))
  = loaded (snd (prepare_command W args clone copy_data h)).
Proof.
  rewrite prepare_command_unfold.
  destruct (projects_prepare W _ _ _ _ h) as [ws|e]; [ | reflexivity ].
  match goal with
  | |- context [prepare_loop W args clone ws ?specs ?h'] =>
      assert (Hloop := prepare_loop_closes W args ws clone specs h');
      destruct (prepare_loop W args clone ws specs h') as [[wfs|e] es]
  end; cbn [snd] in Hloop; [ | exact Hloop ].
  unfold when, copy_data_call, call, ret.
  destruct (nonempty (a_data args) && copy_data);
    [ destruct (projects_copy_data W ws _ _ _ _) | ];
    cbn [snd]; cbn [closed loaded ev_prepare_create];
    rewrite closed_app, loaded_app, Hloop; reflexivity.
Qed.

(** X7: with [clone], [prepare_command] clones each workflow before it
    constructs the next one: the workflows cloned are those constructed,
    but for the last one when its construction or creation raised. *)
Theorem prepare_command_clones_as_it_goes (W : World) (args : Args)
    (copy_data : bool) (h : trace) :
  constructed (snd (prepare_command W args true copy_data h))
    = cloned (snd (prepare_command W args true copy_data h))
  \/ (exists wf,
        constructed (snd (prepare_command W args true copy_data h))
          = cloned (snd (prepare_command W args true copy_data h)) ++ [wf]
        /\ is_ok (fst (prepare_command W args true copy_data h)) = false).
Proof.
  rewrite prepare_command_unfold.
  destruct (projects_prepare W _ _ _ _ h) as [ws|e]; [ | left; reflexivity ].
  match goal with
  | |- context [prepare_loop W args true ws ?specs ?h'] =>
      assert (Hloop := prepare_loop_clones_as_it_goes W args ws specs h');
      destruct (prepare_loop W args true ws specs h') as [[wfs|e] es]
  end; cbn [fst snd] in Hloop.
  - destruct Hloop as [Hloop | (wf & _ & Hok)]; [ | discriminate ].
    left.
    assert (Hq := copy_data_quiet W args (nonempty (a_data args) && copy_data) ws
                    (h ++ ev_prepare_create args :: es)).
    destruct (when _ _ _) as [[u|e] es2]; cbn [fst snd] in *;
      destruct Hq as [Hq1 Hq2]; cbn [constructed cloned ev_prepare_create];
      rewrite constructed_app, cloned_app, Hq1, Hq2, Hloop; reflexivity.
  - cbn [fst snd constructed cloned ev_prepare_create].
    destruct Hloop as [Hloop | (wf & Hloop & _)];
      [ left; exact Hloop | right; exists wf; split; [ exact Hloop | reflexivity ] ].
Qed.

(** X8: [prepare_command] copies the input data only when asked to and
    when there is any, as its last call, after the loop has gone through
    all workflow specs without raising. *)
Theorem prepare_command_copies_data_last (W : World) (args : Args)
    (clone copy_data : bool) (h : trace)
    (ws : Workspace) (d : list string) (u g : option string) :
  In (EvCopyData ws d u g) (snd (prepare_command W args clone copy_data h)) ->
  copy_data = true /\ nonempty (a_data args) = true
  /\ d = a_data args /\ u = a_user args /\ g = a_group args
  /\ projects_prepare W (a_target args) true (a_user args) (a_group args) h = Ok ws
  /\ exists wfs es,
       prepare_loop W args clone ws
         (zip_longest (a_workflow args) (a_commit args) (a_params args))
         (h ++ [ev_prepare_create args]) = (Ok wfs, es)
       /\ snd (prepare_command W args clone copy_data h)
          = ev_prepare_create args :: es ++ [EvCopyData ws d u g].
Proof.
  rewrite prepare_command_unfold.
  destruct (projects_prepare W _ _ _ _ h) as [ws'|e].
  2:{ cbn. intros [H | []]. discriminate. }
  assert (Hloop : forall specs h',
             Forall (fun ev => forall ws0 d0 u0 g0, ev <> EvCopyData ws0 d0 u0 g0)
               (snd (prepare_loop W args clone ws' specs h'))).
  { apply prepare_loop_events; intros; discriminate. }
  match goal with
  | |- context [prepare_loop W args clone ws' ?specs ?h'] =>
      specialize (Hloop specs h');
      destruct (prepare_loop W args clone ws' specs h') as [[wfs|e] es] eqn:Hpl
  end; cbn [snd] in Hloop.
  2:{ cbn [snd]. intros [H | H]; [ discriminate | ].
      rewrite Forall_forall in Hloop. exfalso. eapply Hloop; eauto. }
  unfold when, copy_data_call, call, ret.
  rewrite Forall_forall in Hloop.
  assert (Hno : forall tl, In (EvCopyData ws d u g)
                              (ev_prepare_create args :: es ++ tl) ->
                           In (EvCopyData ws d u g) tl).
  { intros tl [H | H]; [ discriminate | ].
    apply in_app_or in H. destruct H as [H | H]; [ | exact H ].
    exfalso. eapply Hloop; eauto. }
  destruct (nonempty (a_data args)), copy_data; cbn [andb];
    try (cbn [snd]; intros H; apply Hno in H; destruct H).
  assert (Hin : In (EvCopyData ws d u g)
                  [EvCopyData ws' (a_data args) (a_user args) (a_group args)] ->
                ws = ws' /\ d = a_data args /\ u = a_user args /\ g = a_group args).
  { intros [H | []]. inversion H; auto. }
  destruct (projects_copy_data W ws' _ _ _ _); cbn [snd]; intros H;
    apply Hno, Hin in H; destruct H as (-> & -> & -> & ->);
    repeat split; exists wfs, es; split; auto.
Qed.

Lemma prepare_command_copies_data_last_witness :
  true = true /\ nonempty (a_data args_prepare_data) = true
  /\ ["in.txt"] = a_data args_prepare_data
  /\ Some "alice" = a_user args_prepare_data
  /\ Some "lab" = a_group args_prepare_data
  /\ projects_prepare (world_with args_prepare_data [] 0)
       (a_target args_prepare_data) true (a_user args_prepare_data)
       (a_group args_prepare_data) [] = Ok workspace_w
  /\ exists wfs es,
       prepare_loop (world_with args_prepare_data [] 0) args_prepare_data true
         workspace_w
         (zip_longest (a_workflow args_prepare_data) (a_commit args_prepare_data)
            (a_params args_prepare_data))
         ([] ++ [ev_prepare_create args_prepare_data]) = (Ok wfs, es)
       /\ snd (prepare_command (world_with args_prepare_data [] 0)
                 args_prepare_data true true [])
          = ev_prepare_create args_prepare_data
              :: es ++ [EvCopyData workspace_w ["in.txt"] (Some "alice") (Some "lab")].
Proof.
  apply (prepare_command_copies_data_last
           (world_with args_prepare_data [] 0) args_prepare_data true true []).
  vm_compute. do 8 right. left. reflexivity.
Defined.

(** ** [run_command] *)

Section RunCommand.

Variable W : World.
Variable args : Args.

(** [run_command], outcome by outcome of its preparation. *)
Lemma run_command_unfold (h : trace) :
  run_command W args h =
    match prepare_command W args false false h with
    | (Raise e, es) => (Raise e, es)
    | (Ok (ws, wfs), es) =>
        if a_daemon args
        then
          (fst (utils_daemonize W (run W args ws wfs) (a_pidfile args)
                  (a_umask args) (h ++ es)),
           es ++ snd (utils_daemonize W (run W args ws wfs) (a_pidfile args)
                        (a_umask args) (h ++ es)))
        else
          match os_umask W (a_umask args) (h ++ es) with
          | Raise e => (Raise e, es ++ [EvUmask (a_umask args)])
          | Ok _ =>
              (fst (run W args ws wfs (h ++ es ++ [EvUmask (a_umask args)])),
               es ++ EvUmask (a_umask args)
                 :: snd (run W args ws wfs (h ++ es ++ [EvUmask (a_umask args)])))
          end
    end.
Proof.
  unfold run_command. unfold bind at 1.
  destruct (prepare_command W args false false h) as [[[ws wfs]|e] es];
    [ | reflexivity ].
  destruct (a_daemon args).
  - destruct (utils_daemonize W _ _ _ _); reflexivity.
  - unfold bind, call. destruct (os_umask W _ _); [ | reflexivity ].
    rewrite <- app_assoc.
    destruct (run W args ws wfs _); reflexivity.
Qed.

(** The preparation of [run_command] creates, copies, runs and commits
    nothing, and leaves the umask alone. *)
Lemma run_preparation_quiet (h : trace) :
  Forall (fun ev => op_of ev = [] /\ is_commit_start ev = false
                    /\ is_umask ev = false /\ is_commit_or_rmtree ev = false)
    (snd (prepare_command W args false false h)).
Proof.
  rewrite prepare_command_unfold.
  destruct (projects_prepare W _ _ _ _ h) as [ws|e];
    [ | repeat constructor ].
  match goal with
  | |- context [prepare_loop W args false ws ?specs ?h'] =>
      assert (Hloop := prepare_loop_events W args false ws
                (fun ev => op_of ev = [] /\ is_commit_start ev = false
                           /\ is_umask ev = false
                           /\ is_commit_or_rmtree ev = false)
                (fun _ => conj eq_refl (conj eq_refl (conj eq_refl eq_refl)))
                (fun _ => conj eq_refl (conj eq_refl (conj eq_refl eq_refl)))
                (fun _ _ => conj eq_refl (conj eq_refl (conj eq_refl eq_refl)))
                (fun _ => conj eq_refl (conj eq_refl (conj eq_refl eq_refl)))
                (fun _ => conj eq_refl (conj eq_refl (conj eq_refl eq_refl)))
                (fun _ _ _ H => False_ind _ (Bool.diff_false_true H))
                (fun _ H => False_ind _ (Bool.diff_false_true H))
                (fun _ _ _ H => False_ind _ (Bool.diff_false_true H))
                specs h');
      destruct (prepare_loop W args false ws specs h') as [[wfs|e] es]
  end; cbn [snd] in Hloop.
  - rewrite andb_false_r. cbn [when ret snd]. rewrite app_nil_r.
    constructor; [ repeat split | exact Hloop ].
  - constructor; [ repeat split | exact Hloop ].
Qed.

Lemma quiet_counts (t : trace) :
  Forall (fun ev => op_of ev = [] /\ is_commit_start ev = false
                    /\ is_umask ev = false /\ is_commit_or_rmtree ev = false) t ->
  ops t = [] /\ count_commit_starts t = 0 /\ committed t = []
  /\ forallb (fun ev => negb (is_umask ev)) t = true.
Proof.
  intros H. repeat split.
  - apply ops_none. eapply Forall_impl; [ | exact H ]. cbn. tauto.
  - apply count_commit_starts_none. eapply Forall_impl; [ | exact H ].
    cbn. tauto.
  - apply committed_none. eapply Forall_impl; [ | exact H ]. cbn. tauto.
  - apply forallb_Forall. eapply Forall_impl; [ | exact H ].
    cbn. intros ev (_ & _ & -> & _). reflexivity.
Qed.

(** The run procedure never sets the umask. *)
Lemma run_no_umask (ws : Workspace) (wfs : list Workflow) (h : trace) :
  forallb (fun ev => negb (is_umask ev)) (snd (run W args ws wfs h)) = true.
Proof.
  apply forallb_Forall. rewrite run_unfold. cbn [snd].
  rewrite Forall_app. split.
  - apply before_commit_events; intros; reflexivity.
  - destruct (commit_command_tail W args (fun ev => negb (is_umask ev) = true)
                (h ++ before_commit W args ws wfs h))
      as (tail & -> & Htail); try reflexivity.
    constructor; [ reflexivity | exact Htail ].
Qed.

End RunCommand.

(** X9: when the preparation of the run command raises (the workspace
    cannot be prepared, a parameter file cannot be read, a constructor
    raises), [run_command] raises the same error at once: the umask is
    not set, no data is copied, no workflow is created or run, and the
    commit phase is not started. *)
Theorem run_command_stops_when_preparation_fails (W : World) (args : Args)
    (h : trace) (e : exn) :
  fst (prepare_command W args false false h) = Raise e ->
  run_command W args h = (Raise e, snd (prepare_command W args false false h))
  /\ ops (snd (run_command W args h)) = []
  /\ count_commit_starts (snd (run_command W args h)) = 0
  /\ committed (snd (run_command W args h)) = []
  /\ forallb (fun ev => negb (is_umask ev)) (snd (run_command W args h)) = true.
Proof.
  intros Hp. assert (Hq := run_preparation_quiet W args h).
  rewrite run_command_unfold.
  destruct (prepare_command W args false false h) as [[[ws wfs]|e'] es];
    cbn [fst snd] in *; [ discriminate | ].
  inversion Hp; subst. split; [ reflexivity | ]. apply quiet_counts, Hq.
Qed.

Lemma run_command_stops_when_preparation_fails_witness :
  run_command (world_bad_params args_run_bad_params) args_run_bad_params [] =
    (Raise (ValueError "Expecting value: line 1 column 1 (char 0)"),
     snd (prepare_command (world_bad_params args_run_bad_params)
            args_run_bad_params false false []))
  /\ ops (snd (run_command (world_bad_params args_run_bad_params)
                 args_run_bad_params [])) = []
  /\ count_commit_starts
       (snd (run_command (world_bad_params args_run_bad_params)
               args_run_bad_params [])) = 0
  /\ committed (snd (run_command (world_bad_params args_run_bad_params)
                       args_run_bad_params [])) = []
  /\ forallb (fun ev => negb (is_umask ev))
       (snd (run_command (world_bad_params args_run_bad_params)
               args_run_bad_params [])) = true.
Proof.
  apply (run_command_stops_when_preparation_fails
           (world_bad_params args_run_bad_params) args_run_bad_params []).
  reflexivity.
Defined.

(** X10: a run command that is not daemonized sets the umask once its
    workflows are constructed, before it copies data or creates a
    workflow, and never again; when [os.umask] raises, the command raises
    that error without running or committing anything. *)
Theorem run_command_sets_umask_first (W : World) (args : Args) (h : trace)
    (ws : Workspace) (wfs : list Workflow) (es : trace) :
  a_daemon args = false ->
  prepare_command W args false false h = (Ok (ws, wfs), es) ->
  (exists rest,
      snd (run_command W args h) = es ++ EvUmask (a_umask args) :: rest
      /\ ops es = [] /\ count_commit_starts es = 0
      /\ forallb (fun ev => negb (is_umask ev)) (es ++ rest) = true)
  /\ (forall e,
         os_umask W (a_umask args) (h ++ es) = Raise e ->
         run_command W args h = (Raise e, es ++ [EvUmask (a_umask args)])).
Proof.
  intros Hd Hp. assert (Hq := run_preparation_quiet W args h).
  rewrite run_command_unfold, Hp, Hd. rewrite Hp in Hq. cbn [snd] in Hq.
  destruct (quiet_counts es Hq) as (Hops & Hcount & _ & Hum).
  destruct (os_umask W (a_umask args) (h ++ es)) as [u|e].
  - split; [ | discriminate ].
    eexists. split; [ reflexivity | ]. repeat split; auto.
    rewrite forallb_app, Hum. apply run_no_umask.
  - split.
    + exists []. repeat split; auto. rewrite app_nil_r. exact Hum.
    + intros e' He'. inversion He'; reflexivity.
Qed.

Lemma run_command_sets_umask_first_witness :
  run_command (world_failing args_run_repoA (Ok args_run_repoA)
                 (Raise (TypeError "an integer is required")))
    args_run_repoA [] =
    (Raise (TypeError "an integer is required"),
     [ev_prepare_create args_run_repoA; EvWorkflow workflow_runA]
       ++ [EvUmask (a_umask args_run_repoA)]).
Proof.
  apply (proj2 (run_command_sets_umask_first
                  (world_failing args_run_repoA (Ok args_run_repoA)
                     (Raise (TypeError "an integer is required")))
                  args_run_repoA [] workspace_w [workflow_runA]
                  [ev_prepare_create args_run_repoA; EvWorkflow workflow_runA]
                  eq_refl eq_refl)
           (TypeError "an integer is required")).
  reflexivity.
Defined.

(** X11: in daemon mode [run_command] does not set the umask itself: it
    hands the run procedure, the pidfile and the umask to
    [utils.daemonize].  Where that runs the procedure in place, the
    command does what the run procedure does after the preparation, so
    the commit phase is started exactly once. *)
Theorem run_command_daemon_inline (W : World) (args : Args) (h : trace)
    (ws : Workspace) (wfs : list Workflow) (es : trace) :
  a_daemon args = true ->
  (forall m p u, utils_daemonize W m p u = m) ->
  prepare_command W args false false h = (Ok (ws, wfs), es) ->
  run_command W args h =
    (fst (run W args ws wfs (h ++ es)), es ++ snd (run W args ws wfs (h ++ es)))
  /\ count_commit_starts (snd (run_command W args h)) = 1
  /\ forallb (fun ev => negb (is_umask ev)) (snd (run_command W args h)) = true.
Proof.
  intros Hd Hinline Hp. assert (Hq := run_preparation_quiet W args h).
  rewrite run_command_unfold, Hp, Hd, Hinline. rewrite Hp in Hq.
  cbn [snd] in *.
  destruct (quiet_counts es Hq) as (_ & Hcount & _ & Hum).
  split; [ reflexivity | split ].
  - rewrite count_commit_starts_app, Hcount, run_unfold. cbn [snd].
    rewrite count_commit_starts_app, before_commit_no_start,
      commit_command_starts_once. reflexivity.
  - rewrite forallb_app, Hum. apply run_no_umask.
Qed.

Lemma run_command_daemon_inline_witness :
  count_commit_starts
    (snd (run_command (world_with args_run_daemon ["repoA"] 0)
            args_run_daemon [])) = 1.
Proof.
  apply (proj1 (proj2 (run_command_daemon_inline
                         (world_with args_run_daemon ["repoA"] 0)
                         args_run_daemon [] workspace_w
                         [mkWorkflow workspace_w None (Some "repoA")
                            (Some "commit1") JNull]
                         [ev_prepare_create args_run_daemon;
                          EvWorkflow (mkWorkflow workspace_w None (Some "repoA")
                                        (Some "commit1") JNull)]
                         eq_refl (fun _ _ _ => eq_refl) eq_refl))).
Defined.

(** ** [commit_command] *)

(** The [try] block of [commit_command] takes one of its courses. *)
Lemma commit_try_course (W : World) (args : Args) (h : trace) :
  commit_course args (fst (commit_try W args h)) (snd (commit_try W args h)).
Proof.
  rewrite commit_try_unfold.
  destruct (projects_prepare W _ _ _ _ _) as [ws|e]; [ | constructor ].
  destruct (commit_destination args) as [d|e]; [ | constructor ].
  destruct (os_path_exists W d _); [ constructor | ].
  destruct (os_listdir W _ _) as [names|e]; [ | constructor ].
  destruct (open_workflows_unfold W ws names (h ++ commit_prefix args d ws))
    as [(k & e & Hk & ->) | ->].
  { apply course_unopened. exact Hk. }
  match goal with
  | |- context [commit_loop W args d ?wfs ?h'] =>
      destruct (commit_loop_unfold W args d wfs h') as [(k & e & Hk & ->) | ->]
  end.
  { rewrite length_map in Hk. rewrite firstn_map.
    apply (course_uncommitted args d ws names k e Hk). }
  unfold when, remove_workspace, bind, logger_info, call, ret.
  destruct (a_cleanup args) eqn:Hc.
  - destruct (shutil_rmtree W _ _); apply (course_cleaned args d ws names _ Hc).
  - cbn [fst snd]. rewrite app_nil_r.
    apply (course_committed args d ws names Hc).
Qed.

(** The calls of a course other than the removal of the workspace. *)
Lemma course_parts (args : Args) (d : string) (ws : Workspace)
    (names : list string) (P : event -> Prop) :
  P ev_commit_start -> P (ev_prepare_open args) -> P (EvExists d) ->
  P (EvListdir (ws_src ws)) ->
  (forall n, P (EvWorkflow (workflow_named ws n))) ->
  (forall n, P (EvCommit (workflow_named ws n) d (a_user args) 63)) ->
  Forall P (commit_prefix args d ws) /\ Forall P (opens ws names)
  /\ Forall P (commits args d ws names).
Proof.
  intros Hs Hp He Hl Hw Hc. split; [ repeat constructor; auto | split ].
  - apply Forall_forall. intros ev Hin. apply in_map_iff in Hin.
    destruct Hin as (n & <- & _). apply Hw.
  - apply Forall_forall. intros ev Hin. apply in_map_iff in Hin.
    destruct Hin as (wf & <- & Hin). apply in_map_iff in Hin.
    destruct Hin as (n & <- & _). apply Hc.
Qed.

Lemma course_lists (args : Args) (d : string) (ws : Workspace)
    (names : list string) :
  committed (commit_prefix args d ws) = []
  /\ constructed (commit_prefix args d ws) = []
  /\ committed (opens ws names) = []
  /\ constructed (opens ws names) = map (workflow_named ws) names
  /\ committed (commits args d ws names) = map (workflow_named ws) names
  /\ constructed (commits args d ws names) = [].
Proof.
  repeat split; try reflexivity; unfold opens, commits.
  - apply committed_map_workflow.
  - induction names as [|n names IH]; simpl; [ | rewrite IH ]; reflexivity.
  - apply committed_map_commit.
  - induction names as [|n names IH]; simpl; auto.
Qed.

(** A course is made of plain calls of the commit phase, but for the
    removal of the workspace at the end of a course that committed every
    workflow found. *)
Lemma course_plain (args : Args) (P : event -> Prop) (r : result unit)
    (es : trace) :
  P ev_commit_start -> P (ev_prepare_open args) ->
  (forall d, P (EvExists d)) -> (forall p, P (EvListdir p)) ->
  (forall ws n, P (EvWorkflow (workflow_named ws n))) ->
  (forall ws n d, P (EvCommit (workflow_named ws n) d (a_user args) 63)) ->
  commit_course args r es ->
  Forall P es
  \/ (a_cleanup args = true
      /\ exists ws names pre,
           es = pre ++ [EvLog INFO "Removing workspace"; EvRmtree (ws_base ws)]
           /\ Forall P pre
           /\ committed pre = map (workflow_named ws) names
           /\ constructed pre = map (workflow_named ws) names).
Proof.
  intros Hs Hp He Hl Hw Hc Hcourse.
  destruct Hcourse as [e | d ws | d ws e | d ws names k e Hk
                       | d ws names k e Hk | d ws names Hcl | d ws names r Hcl];
    try (left; repeat constructor; auto; fail).
  - left. destruct (course_parts args d ws (firstn (S k) names) P)
      as (H1 & H2 & _); auto.
    rewrite Forall_app. auto.
  - left. destruct (course_parts args d ws names P) as (H1 & H2 & _); auto.
    destruct (course_parts args d ws (firstn (S k) names) P) as (_ & _ & H3);
      auto.
    rewrite !Forall_app. auto.
  - left. destruct (course_parts args d ws names P) as (H1 & H2 & H3); auto.
    rewrite !Forall_app. auto.
  - right. split; [ exact Hcl | ].
    exists ws, names,
      (commit_prefix args d ws ++ opens ws names ++ commits args d ws names).
    destruct (course_parts args d ws names P) as (H1 & H2 & H3); auto.
    destruct (course_lists args d ws names) as (L1 & L2 & L3 & L4 & L5 & L6).
    repeat split.
    + rewrite <- !app_assoc. reflexivity.
    + rewrite !Forall_app. auto.
    + rewrite !committed_app, L1, L3, L5. reflexivity.
    + rewrite !constructed_app, L2, L4, L6, app_nil_r. reflexivity.
Qed.

(** X12: [commit_command] only logs, re-opens the workspace (without
    [create_ok], user or group), looks up the destination, lists [src],
    opens handles by name (without remote, commit or parameters), commits
    and removes the workspace: it never creates, clones, configures or
    runs a workflow, copies data or sets the umask. *)
Theorem commit_command_only_commits (W : World) (args : Args) (h : trace) :
  forallb commit_kind (snd (commit_command W args h)) = true.
Proof.
  apply forallb_Forall. rewrite commit_command_unfold.
  assert (Hc := commit_try_course W args h).
  apply (course_plain args (fun ev => commit_kind ev = true)) in Hc;
    try (intros; reflexivity).
  destruct (commit_try W args h) as [[u|e] es]; cbn [fst snd] in *;
    destruct Hc as [Hc | (_ & ws & names & pre & -> & Hc & _)];
    rewrite ?Forall_app; repeat split; auto; repeat constructor.
Qed.



(** X14: [commit_command] logs its critical record exactly when it
    raises: then it is the last record, and the only one of its kind; a
    commit phase that returns has not logged it. *)
Theorem commit_command_logs_failure (W : World) (args : Args) (h : trace) :
  (is_ok (fst (commit_command W args h)) = true ->
   ~ In ev_commit_failed (snd (commit_command W args h)))
  /\ (forall e,
        fst (commit_command W args h) = Raise e ->
        exists es,
          snd (commit_command W args h) = es ++ [ev_commit_failed]
          /\ ~ In ev_commit_failed es).
Proof.
  rewrite commit_command_unfold.
  assert (Hc := commit_try_course W args h).
  apply (course_plain args (fun ev => ev <> ev_commit_failed)) in Hc;
    try (intros; discriminate).
  assert (Hno : forall es, (Forall (fun ev => ev <> ev_commit_failed) es
             \/ (a_cleanup args = true
                 /\ exists ws names pre,
                      es = pre ++ [EvLog INFO "Removing workspace";
                                   EvRmtree (ws_base ws)]
                      /\ Forall (fun ev => ev <> ev_commit_failed) pre
                      /\ committed pre = map (workflow_named ws) names
                      /\ constructed pre = map (workflow_named ws) names)) ->
             ~ In ev_commit_failed es).
  { intros es [H | (_ & ws & names & pre & -> & H & _)] Hin;
      rewrite Forall_forall in H.
    - apply (H _ Hin). reflexivity.
    - apply in_app_or in Hin. destruct Hin as [Hin | [Hin | [Hin | []]]];
        [ apply (H _ Hin); reflexivity | discriminate | discriminate ]. }
  destruct (commit_try W args h) as [[u|e] es]; cbn [fst snd] in *; split.
  - intros _. apply Hno, Hc.
  - discriminate.
  - discriminate.
  - intros e' _. exists es. split; [ reflexivity | apply Hno, Hc ].
Qed.

Lemma commit_command_logs_failure_witness :
  exists es,
    snd (commit_command (world_dropbox_exists args_commit_umask)
           args_commit_umask []) = es ++ [ev_commit_failed]
    /\ ~ In ev_commit_failed es.
Proof.
  apply (proj2 (commit_command_logs_failure
                  (world_dropbox_exists args_commit_umask) args_commit_umask [])
           (dropbox_exists_error "/drop/B1" workspace_w)).
  reflexivity.
Defined.


(** ** The pairing of the specs and the destination *)

Lemma nth_error_padded {A} (l : list A) (n i : nat) :
  nth_error (map Some l ++ repeat None (n - length l)) i =
    if (i <? Nat.max (length l) n)%nat then Some (nth_error l i) else None.
Proof.
  destruct (Nat.ltb_spec i (Nat.max (length l) n)) as [Hlt | Hge].
  - destruct (Nat.lt_ge_cases i (length l)) as [Hi | Hi].
    + rewrite nth_error_app1 by (rewrite length_map; exact Hi).
      rewrite nth_error_map. destruct (nth_error l i) eqn:E; [ reflexivity | ].
      apply nth_error_None in E. lia.
    + rewrite nth_error_app2 by (rewrite length_map; exact Hi).
      rewrite length_map, nth_error_repeat by lia.
      rewrite (proj2 (nth_error_None l i) Hi). reflexivity.
  - apply nth_error_None. rewrite length_app, length_map, repeat_length. lia.
Qed.

(** X16: [zip_longest] keeps each of its three lists in order and pads
    the shorter ones with [None] up to the length of the longest; no
    triple is empty on all three sides. *)
Theorem zip_longest_pads_with_None {A B C} (l1 : list A) (l2 : list B)
    (l3 : list C) :
  let n := Nat.max (length l1) (Nat.max (length l2) (length l3)) in
  map (fun t => fst (fst t)) (zip_longest l1 l2 l3)
    = map Some l1 ++ repeat None (n - length l1)
  /\ map (fun t => snd (fst t)) (zip_longest l1 l2 l3)
     = map Some l2 ++ repeat None (n - length l2)
  /\ map (fun t => snd t) (zip_longest l1 l2 l3)
     = map Some l3 ++ repeat None (n - length l3)
  /\ Forall (fun t => t <> (None, None, None)) (zip_longest l1 l2 l3).
Proof.
  cbv zeta. set (n := Nat.max (length l1) (Nat.max (length l2) (length l3))).
  assert (Hnth := zip_longest_nth l1 l2 l3). fold n in Hnth.
  assert (H1 : Nat.max (length l1) n = n) by lia.
  assert (H2 : Nat.max (length l2) n = n) by lia.
  assert (H3 : Nat.max (length l3) n = n) by lia.
  repeat split.
  - apply nth_error_ext. intros i.
    rewrite nth_error_map, Hnth, nth_error_padded, H1.
    destruct (i <? n)%nat; reflexivity.
  - apply nth_error_ext. intros i.
    rewrite nth_error_map, Hnth, nth_error_padded, H2.
    destruct (i <? n)%nat; reflexivity.
  - apply nth_error_ext. intros i.
    rewrite nth_error_map, Hnth, nth_error_padded, H3.
    destruct (i <? n)%nat; reflexivity.
  - apply Forall_forall. intros t Hin Ht.
    apply In_nth_error in Hin. destruct Hin as [i Hi].
    rewrite Hnth in Hi. destruct (Nat.ltb_spec i n) as [Hlt | Hge];
      [ | discriminate ].
    subst t. inversion Hi as [[E1 E2 E3]].
    apply nth_error_None in E1, E2, E3. lia.
Qed.

Lemma prefix_append (a b : string) : String.prefix a (a ^^ b) = true.
Proof.
  induction a as [|c a IH]; simpl; [ destruct b; reflexivity | ].
  destruct (ascii_dec c c); [ exact IH | contradiction ].
Qed.

(** X17: the destination of the commit is the dropbox joined with the
    barcode, or with the jobid when there is no barcode.  It lies under
    the dropbox unless that component starts with a separator, in which
    case the destination is the component itself and the dropbox is
    dropped. *)
Theorem commit_destination_under_dropbox (args : Args) (d : string) :
  commit_destination args = Ok d ->
  exists db c,
    a_dropbox args = Some db
    /\ (if truthy (a_barcode args) then a_barcode args else a_jobid args) = Some c
    /\ (if posixpath.startswith_sep c
        then d = c
        else String.prefix db d = true).
Proof.
  unfold commit_destination, posixpath.join.
  destruct (a_dropbox args) as [db|]; [ | destruct (truthy _); discriminate ].
  set (comp := if truthy (a_barcode args) then a_barcode args else a_jobid args).
  assert (Hjoin : match comp with
                  | Some c => Ok (posixpath.join2 db c)
                  | None => Raise (TypeError "expected str, bytes or os.PathLike object, not NoneType")
                  end = Ok d ->
                  exists c, comp = Some c /\ posixpath.join2 db c = d).
  { destruct comp as [c|]; [ | discriminate ].
    intros H. inversion H. eauto. }
  intros H.
  assert (Hc : exists c, comp = Some c /\ posixpath.join2 db c = d).
  { apply Hjoin. unfold comp. destruct (truthy (a_barcode args)); exact H. }
  destruct Hc as (c & Hc & <-). exists db, c. repeat split; [ exact Hc | ].
  unfold posixpath.join2. destruct (posixpath.startswith_sep c);
    [ reflexivity | ].
  destruct ((db =? "") || posixpath.endswith_sep db); apply prefix_append.
Qed.

Lemma commit_destination_under_dropbox_witness :
  exists db c,
    a_dropbox args_run_repoA = Some db
    /\ (if truthy (a_barcode args_run_repoA)
        then a_barcode args_run_repoA else a_jobid args_run_repoA) = Some c
    /\ (if posixpath.startswith_sep c
        then "/drop/B1" = c
        else String.prefix db "/drop/B1" = true).
Proof.
  apply (commit_destination_under_dropbox args_run_repoA "/drop/B1").
  reflexivity.
Defined.

(** ** Users of the run procedure *)

(** X18: the run procedure creates every workflow directory without a
    user or a group, configures it for the user and the group of the
    invocation and runs it as that user; it copies the data given on the
    command line into the workspace it was given. *)
Theorem run_procedure_users (W : World) (args : Args) (ws : Workspace)
    (wfs : list Workflow) (h : trace) (ev : event) :
  In ev (snd (run W args ws wfs h)) ->
  match ev with
  | EvCreate _ u g => u = None /\ g = None
  | EvWriteConfig _ u g => u = a_user args /\ g = a_group args
  | EvRun _ u => u = a_user args
  | EvCopyData ws' d u g =>
      ws' = ws /\ d = a_data args /\ u = a_user args /\ g = a_group args
      /\ nonempty (a_data args) = true
  | _ => True
  end.
Proof.
  set (P := fun ev : event =>
              match ev with
              | EvCreate _ u g => u = None /\ g = None
              | EvWriteConfig _ u g => u = a_user args /\ g = a_group args
              | EvRun _ u => u = a_user args
              | EvCopyData ws' d u g =>
                  ws' = ws /\ d = a_data args /\ u = a_user args /\ g = a_group args
                  /\ nonempty (a_data args) = true
              | _ => True
              end).
  intros Hin. change (P ev).
  assert (Hall : Forall P (snd (run W args ws wfs h))).
  { rewrite run_unfold. cbn [snd]. rewrite Forall_app. split.
    - unfold before_commit. rewrite Forall_app. split.
      + rewrite run_body_unfold. unfold when, copy_data_call, call, ret.
        assert (Hloop : forall h', Forall P (snd (run_loop W args wfs h')))
          by (apply run_loop_events; intros; cbn; auto).
        destruct (nonempty (a_data args)) eqn:Hne.
        * destruct (projects_copy_data W ws _ _ _ h); cbn [snd];
            [ constructor; [ cbn; auto | apply Hloop ]
            | repeat constructor; auto ].
        * cbn [snd app]. apply Hloop.
      + unfold run_epilogue.
        destruct (fst (run_body W args ws wfs h)) as [u|e];
          [ | destruct (is_Exception e) ]; repeat constructor.
    - destruct (commit_command_tail W args P (h ++ before_commit W args ws wfs h))
        as (tail & -> & Htail); try (intros; exact I).
      constructor; [ exact I | exact Htail ]. }
  rewrite Forall_forall in Hall. apply Hall, Hin.
Qed.

Lemma run_procedure_users_witness :
  Some "alice" = a_user args_run_two.
Proof.
  apply (run_procedure_users (world_with args_run_two ["repoA"] 0) args_run_two
           workspace_w [workflow_runA; workflow_runB] []
           (EvRun workflow_runA (Some "alice"))).
  vm_compute. do 3 right. left. reflexivity.
Defined.

(** ** What each command does *)

(** X19: once its prologue is through, [main] does only what the chosen
    command does, besides logging: with [prepare] it prepares with cloning
    and data copy and never runs a workflow, commits or deletes; with
    [commit] it only runs the commit phase and never creates, clones,
    configures or runs a workflow. *)
Theorem main_does_the_chosen_command (W : World) (h : trace) (args : Args)
    (es : trace) :
  main_prologue W h = (Ok args, es) ->
  forallb (fun ev =>
             prologue_kind ev
             || match a_command args with
                | CmdPrepare => prepare_kind true true ev
                | CmdCommit => commit_kind ev
                | CmdRun => true
                end)
    (snd (main W h)) = true.
Proof.
  intros Hp. apply forallb_Forall.
  set (P := fun ev => prologue_kind ev
                      || match a_command args with
                         | CmdPrepare => prepare_kind true true ev
                         | CmdCommit => commit_kind ev
                         | CmdRun => true
                         end = true).
  assert (Hes : Forall P es).
  { generalize (main_prologue_events W h). rewrite Hp. cbn [snd].
    apply Forall_impl. intros ev Hev. unfold P. rewrite Hev. reflexivity. }
  assert (Hd : Forall P (snd (dispatch W args (h ++ es)))).
  { unfold dispatch, P. destruct (a_command args).
    - assert (Hk := prepare_command_kinds W args true true (h ++ es)).
      unfold bind, ret.
      destruct (prepare_command W args true true (h ++ es)) as [[ww|e] ep];
        cbn [snd] in *; rewrite ?app_nil_r;
        (eapply Forall_impl; [ | exact Hk ]); intros ev ->;
        apply orb_true_r.
    - apply Forall_forall. intros ev _. apply orb_true_r.
    - rewrite commit_command_unfold.
      assert (Hc := commit_try_course W args (h ++ es)).
      apply (course_plain args (fun ev => commit_kind ev = true)) in Hc;
        try (intros; reflexivity).
      assert (Hall : forall t, Forall (fun ev => commit_kind ev = true) t ->
                               Forall (fun ev => prologue_kind ev || commit_kind ev = true) t).
      { intros t. apply Forall_impl. intros ev ->. apply orb_true_r. }
      destruct (commit_try W args (h ++ es)) as [[u|e] ec]; cbn [fst snd] in *;
        destruct Hc as [Hc | (_ & ws & names & pre & -> & Hc & _)];
        rewrite ?Forall_app; repeat split; auto; repeat constructor. }
  assert (Hlog : forall lvl msg, P (EvLog lvl msg)) by reflexivity.
  assert (Hexc : forall msg e, P (EvLogException msg e)) by reflexivity.
  unfold main, try_finally, try_except_Exception.
  rewrite main_try_unfold, Hp.
  destruct (dispatch W args (h ++ es)) as [[u|e] ed]; cbn [snd] in Hd.
  - cbn. rewrite !Forall_app. repeat split; auto.
  - destruct (is_Exception e); cbn; rewrite ?app_nil_r, !Forall_app;
      repeat split; auto.
Qed.

Lemma main_does_the_chosen_command_witness :
  forallb (fun ev =>
             prologue_kind ev
             || match a_command args_commit_umask with
                | CmdPrepare => prepare_kind true true ev
                | CmdCommit => commit_kind ev
                | CmdRun => true
                end)
    (snd (main (world_with args_commit_umask ["repoA"] 0) [])) = true.
Proof.
  apply (main_does_the_chosen_command
           (world_with args_commit_umask ["repoA"] 0) [] args_commit_umask
           [EvParseArgs; ev_init_logging args_commit_umask;
            ev_starting args_commit_umask]).
  reflexivity.
Defined.
